(** * FraudShield scoring engine: a shallow embedding of
      [app/services/anomaly_detector.py] and the properties of its
      specification.

    Numbers.  Python floats are idealised as canonical rationals [Qc]:
    arithmetic is exact, equality is Leibniz equality, and every
    comparison is decidable and computes.  Integers are [Z].

    Effects.  The detector is a process-wide singleton whose three
    attributes are mutated by [load_model] and by the scaler's
    [fit_transform]; Python exceptions cut a call short.  Both are made
    explicit by a small state-and-exception monad [M] over the record
    [AnomalyDetector].

    Environment.  The file system seen by [os.path.exists] and
    [joblib.load], the clock read by [datetime.utcnow], the settings
    object, the interpreter's string hash, the text rendering of a
    transaction and the numeric square root are inputs of the model. *)

From Stdlib Require Import ZArith QArith Qcanon Qround Lia Lqa.
From stdpp Require Import base option list strings gmap numbers.

Local Open Scope Z_scope.

(** ** Exceptions and results *)

Inductive exn :=
| ValueError (msg : string)
| IndexError (msg : string)
| AttributeError (msg : string)
| NotFittedError (msg : string)
| OtherError (msg : string).

(** [str(e)] of an exception raised with one message. *)
Definition str_exn (e : exn) : string :=
  match e with
  | ValueError msg | IndexError msg | AttributeError msg
  | NotFittedError msg | OtherError msg => msg
  end.

Definition result (A : Type) : Type := exn + A.

Definition Ok {A} (a : A) : result A := inr a.
Definition Raise {A} (e : exn) : result A := inl e.

Definition is_ok {A} (r : result A) : bool :=
  match r with inr _ => true | inl _ => false end.

Definition result_bind {A B} (r : result A) (k : A -> result B) : result B :=
  match r with
  | inl e => inl e
  | inr a => k a
  end.

Definition result_map {A B} (f : A -> B) (r : result A) : result B :=
  result_bind r (fun a => Ok (f a)).

Declare Scope result_scope.
Delimit Scope result_scope with result.
Notation "x <-? c ; k" := (result_bind c (fun x => k))
  (at level 20, c at level 100, k at level 200, only parsing) : result_scope.

(** ** Numbers *)

Abbreviation float := Qc.

Definition of_int (n : Z) : float := Qc_of_Z n.

Definition half : float := Q2Qc (1 # 2).

(** Python's builtin [min(a, b)] and [max(a, b)] on two arguments: the
    first argument is kept unless the second is strictly better. *)
Definition py_min (a b : float) : float :=
  if bool_decide (b < a)%Qc then b else a.

Definition py_max (a b : float) : float :=
  if bool_decide (a < b)%Qc then b else a.

(** [round(x, ndigits)]: scale by a power of ten, round to the nearest
    integer with ties going to the even one, scale back. *)
Definition round_half_even (x : float) : Z :=
  let f := Qfloor x in
  let d := (x - of_int f)%Qc in
  if bool_decide (d < half)%Qc then f
  else if bool_decide (half < d)%Qc then f + 1
  else if Z.even f then f else f + 1.

Definition py_round (x : float) (ndigits : nat) : float :=
  let p := of_int (10 ^ Z.of_nat ndigits) in
  (of_int (round_half_even (x * p)) / p)%Qc.

(** ** Schemas ([app/api/schemas.py]) *)

Record TransactionCreate := {
  amount : float;
  merchant : option string;
  category : option string;
  customer_id : option string
}.

Record TransactionResponse := {
  resp_id : Z;
  resp_amount : float;
  resp_merchant : option string;
  resp_category : option string;
  resp_customer_id : option string;
  is_fraud : bool;
  fraud_score : float;
  timestamp : Z
}.

(** ** Settings ([app/core/config.py]) *)

Record Settings := {
  MODEL_PATH : string;
  FRAUD_THRESHOLD : float
}.

Definition default_settings : Settings :=
  {| MODEL_PATH := "models/isolation_forest_model.joblib";
     FRAUD_THRESHOLD := half |}.

(** ** Arrays *)

Definition matrix : Type := list (list float).

(** [a[i]] on a one-dimensional array, for [i >= 0]. *)
Definition index {A} (a : list A) (i : nat) : result A :=
  match a !! i with
  | Some x => Ok x
  | None => Raise (IndexError "index is out of bounds")
  end.

(** [np.vstack]: the row blocks are laid under each other; an empty
    sequence is refused.  Every block stacked by the detector comes from
    [_extract_features] and is four columns wide, so the column-count
    check of the library cannot fire and is left out. *)
Definition vstack (blocks : list matrix) : result matrix :=
  match blocks with
  | [] => Raise (ValueError "need at least one array to concatenate")
  | _ => Ok (concat blocks)
  end.

(** ** The scaler ([sklearn.preprocessing.StandardScaler()])

    Only the default configuration is ever constructed by the detector.
    [fit] forgets whatever was fitted before, computes the mean and the
    population variance of each column of the given matrix, and keeps
    [scale_ = sqrt(var_)], with 1 in the place of a constant column;
    [transform] subtracts the means and divides by the scales. *)

Record StandardScaler := {
  mean_ : option (list float);
  scale_ : option (list float)
}.

Definition fresh_scaler : StandardScaler :=
  {| mean_ := None; scale_ := None |}.

Definition Qcsum (l : list float) : float := foldr Qcplus 0%Qc l.

Definition column (j : nat) (X : matrix) : list float :=
  map (fun row => nth j row 0%Qc) X.

Definition n_features (X : matrix) : nat :=
  match X with
  | [] => 0
  | row :: _ => length row
  end.

Definition col_mean (c : list float) : float :=
  (Qcsum c / of_int (Z.of_nat (length c)))%Qc.

Definition col_var (c : list float) : float :=
  let m := col_mean c in
  (Qcsum (map (fun x => (x - m) * (x - m)) c) / of_int (Z.of_nat (length c)))%Qc.

Definition transform_row (means scales row : list float) : list float :=
  zip_with (fun x ms => ((x - ms.1) / ms.2)%Qc) row (zip means scales).

Section Scaler.
(** The square root of the numeric library. *)
Variable sqrt : float -> float.

Definition col_scale (c : list float) : float :=
  let v := col_var c in
  if bool_decide (v = 0%Qc) then 1%Qc else sqrt v.

Definition fit (X : matrix) : result StandardScaler :=
  match X with
  | [] => Raise (ValueError "Found array with 0 sample(s)")
  | _ =>
    let cols := map (fun j => column j X) (seq 0 (n_features X)) in
    Ok {| mean_ := Some (map col_mean cols);
          scale_ := Some (map col_scale cols) |}
  end.

Definition transform (sc : StandardScaler) (X : matrix) : result matrix :=
  match mean_ sc, scale_ sc with
  | Some means, Some scales => Ok (map (transform_row means scales) X)
  | _, _ =>
    Raise (NotFittedError
             "This StandardScaler instance is not fitted yet. Call 'fit' with appropriate arguments before using this estimator.")
  end.

(** [fit_transform] returns the refitted scaler next to the scaled
    matrix; the argument scaler is not consulted. *)
Definition fit_transform (sc : StandardScaler) (X : matrix)
  : result (StandardScaler * matrix) :=
  (sc' <-? fit X;
   Xs <-? transform sc' X;
   Ok (sc', Xs))%result.
End Scaler.

(** ** The anomaly model ([sklearn.ensemble.IsolationForest])

    The ensemble is a library object: its hyperparameters are data, its
    fitted state is opaque.  A fitted forest answers [predict] with one
    label per row (-1 anomalous, 1 normal) and [score_samples] with one
    raw score per row; either call may raise (a matrix of the wrong
    width, say).  A forest that was never fitted raises
    [NotFittedError] on both. *)

Record FittedForest := {
  forest_predict : matrix -> result (list Z);
  forest_score_samples : matrix -> result (list float)
}.

Record IsolationForest := {
  contamination : float;
  random_state : Z;
  n_estimators : Z;
  estimators_ : option FittedForest
}.

(** A fitted forest that answers every row on its own: the label and
    the raw score of a row are functions of that row, whatever else is
    in the matrix. *)
Definition row_forest (label_of : list float -> Z)
    (score_of : list float -> float) : FittedForest :=
  {| forest_predict := fun X => Ok (map label_of X);
     forest_score_samples := fun X => Ok (map score_of X) |}.

Definition not_fitted : exn :=
  NotFittedError
    "This IsolationForest instance is not fitted yet. Call 'fit' with appropriate arguments before using this estimator.".

Definition predict (m : IsolationForest) (X : matrix) : result (list Z) :=
  match estimators_ m with
  | Some f => forest_predict f X
  | None => Raise not_fitted
  end.

Definition score_samples (m : IsolationForest) (X : matrix) : result (list float) :=
  match estimators_ m with
  | Some f => forest_score_samples f X
  | None => Raise not_fitted
  end.

(** ** Model artifacts on disk

    What [joblib.load] hands back: a dict, of which only the entries
    under ['model'] and ['scaler'] are read with [dict.get] (an absent
    key reads as [None]); or any other object, taken to be the model
    itself.  A path that exists may still fail to deserialize. *)

Inductive model_data :=
| bundle (model_entry : option IsolationForest) (scaler_entry : option StandardScaler)
| legacy (m : IsolationForest).

Inductive disk_file :=
| pickled (d : model_data)
| unreadable (e : exn).

Definition joblib_load (f : disk_file) : result model_data :=
  match f with
  | pickled d => Ok d
  | unreadable e => Raise e
  end.

(** ** The detector singleton and its monad *)

Record AnomalyDetector := {
  _model : option IsolationForest;
  _scaler : option StandardScaler;
  _model_loaded : bool
}.

(** The class attributes before any call. *)
Definition unloaded : AnomalyDetector :=
  {| _model := None; _scaler := None; _model_loaded := false |}.

Definition M (A : Type) : Type := AnomalyDetector -> AnomalyDetector * result A.

Definition ret {A} (a : A) : M A := fun self => (self, Ok a).

Definition bind {A B} (c : M A) (k : A -> M B) : M B :=
  fun self =>
    match c self with
    | (self', inr a) => k a self'
    | (self', inl e) => (self', inl e)
    end.

Definition raise {A} (e : exn) : M A := fun self => (self, Raise e).

Definition lift {A} (r : result A) : M A := fun self => (self, r).

Definition get : M AnomalyDetector := fun self => (self, Ok self).

Definition put (s : AnomalyDetector) : M unit := fun _ => (s, Ok tt).

(** [try: body except Exception: handler]; the handler runs in the
    state the body had reached. *)
Definition try_except {A} (body : M A) (handler : exn -> M A) : M A :=
  fun self =>
    match body self with
    | (self', inr a) => (self', Ok a)
    | (self', inl e) => handler e self'
    end.

Declare Scope detector_scope.
Delimit Scope detector_scope with M.
Notation "x <- c ; k" := (bind c (fun x => k))
  (at level 20, c at level 100, k at level 200, only parsing) : detector_scope.
Notation "c ;; k" := (bind c (fun _ => k))
  (at level 100, k at level 200, only parsing, right associativity) : detector_scope.

Definition set_model (m : option IsolationForest) : M unit :=
  fun self => ({| _model := m; _scaler := _scaler self;
                  _model_loaded := _model_loaded self |}, Ok tt).

Definition set_scaler (s : option StandardScaler) : M unit :=
  fun self => ({| _model := _model self; _scaler := s;
                  _model_loaded := _model_loaded self |}, Ok tt).

Definition set_model_loaded (b : bool) : M unit :=
  fun self => ({| _model := _model self; _scaler := _scaler self;
                  _model_loaded := b |}, Ok tt).

(** Python truthiness of an [Optional[str]]: [None] and the empty
    string are false. *)
Definition truthy (s : option string) : bool :=
  match s with
  | Some s => negb (bool_decide (s = ""))
  | None => false
  end.

(** [str(x)] of an optional text field. *)
Definition str (s : option string) : string :=
  match s with
  | Some s => s
  | None => "None"
  end.

(** ** The detector ([AnomalyDetector]) *)

Section Detector.
(** The interpreter's [hash] on strings, the rendering [str(transaction)]
    of a request record, the square root of the numeric library, the
    settings object and the file system. *)
Variable hash : string -> Z.
Variable repr : TransactionCreate -> string.
Variable sqrt : float -> float.
Variable settings : Settings.
Variable fs : gmap string disk_file.

Definition _initialize_model : M unit :=
  (set_model (Some {| contamination := Q2Qc (1 # 10);
                      random_state := 42;
                      n_estimators := 100;
                      estimators_ := None |}) ;;
   set_scaler (Some fresh_scaler))%M.

Definition load_model (model_path : option string) : M unit :=
  let model_path :=
    if truthy model_path then str model_path else MODEL_PATH settings in
  try_except
    (match fs !! model_path with
     | Some file =>
       (model_data <- lift (joblib_load file) ;
        match model_data with
        | bundle m s => (set_model m ;; set_scaler s)
        | legacy m => (set_model (Some m) ;; set_scaler (Some fresh_scaler))
        end ;;
        set_model_loaded true)
     | None =>
       (_initialize_model ;;
        set_model_loaded true)
     end)%M
    (fun e =>
       (_initialize_model ;;
        set_model_loaded true)%M).

Definition is_model_loaded : M bool :=
  (self <- get ;
   ret (_model_loaded self && bool_decide (_model self <> None)))%M.

Definition _extract_features (transaction : TransactionCreate) : matrix :=
  let merchant_hash :=
    if truthy (merchant transaction)
    then hash (str (merchant transaction)) mod 1000 else 0 in
  let category_hash :=
    if truthy (category transaction)
    then hash (str (category transaction)) mod 100 else 0 in
  let customer_hash :=
    if truthy (customer_id transaction)
    then hash (str (customer_id transaction)) mod 1000 else 0 in
  [[amount transaction; of_int merchant_hash; of_int category_hash;
    of_int customer_hash]].

(** [if not self._model_loaded or self._model is None: self.load_model()] *)
Definition load_if_needed : M unit :=
  (self <- get ;
   if negb (_model_loaded self) || bool_decide (_model self = None)
   then load_model None
   else ret tt)%M.

(** [self._scaler.fit_transform(features)] when there is a scaler,
    the features themselves otherwise. *)
Definition scale_features (features : matrix) : M matrix :=
  (self <- get ;
   match _scaler self with
   | Some sc =>
     (fitted <- lift (fit_transform sqrt sc features) ;
      set_scaler (Some fitted.1) ;;
      ret fitted.2)
   | None => ret features
   end)%M.

(** The text of the [AttributeError] raised by [None.attr]. *)
Definition no_attribute (attr : string) : exn :=
  AttributeError ("'NoneType' object has no attribute '" +:+ attr +:+ "'").

(** Attribute access [self._model.attr]. *)
Definition model_attr (attr : string) : M IsolationForest :=
  (self <- get ;
   match _model self with
   | Some m => ret m
   | None => raise (no_attribute attr)
   end)%M.

Definition detect (now : Z) (transaction : TransactionCreate)
  : M TransactionResponse :=
  (load_if_needed ;;
   let features := _extract_features transaction in
   features_scaled <- scale_features features ;
   m <- model_attr "predict" ;
   predictions <- lift (predict m features_scaled) ;
   prediction <- lift (index predictions 0) ;
   m <- model_attr "score_samples" ;
   anomaly_scores <- lift (score_samples m features_scaled) ;
   anomaly_score <- lift (index anomaly_scores 0) ;
   let fraud_score :=
     (1 - ((anomaly_score - (- half)) / (half - (- half))))%Qc in
   let fraud_score := py_max 0%Qc (py_min 1%Qc fraud_score) in
   let is_fraud :=
     bool_decide (prediction = -1)
     || bool_decide (FRAUD_THRESHOLD settings <= fraud_score)%Qc in
   ret {| resp_id := hash (repr transaction) mod 1000000;
          resp_amount := amount transaction;
          resp_merchant := merchant transaction;
          resp_category := category transaction;
          resp_customer_id := customer_id transaction;
          is_fraud := is_fraud;
          fraud_score := py_round fraud_score 4;
          timestamp := now |})%M.

(** The [for i, transaction in enumerate(transactions)] loop; [now i]
    is the clock reading of iteration [i]. *)
Fixpoint batch_loop (now : nat -> Z) (predictions : list Z)
    (anomaly_scores : list float) (i : nat)
    (transactions : list TransactionCreate)
    (results : list TransactionResponse)
  : result (list TransactionResponse) :=
  match transactions with
  | [] => Ok results
  | transaction :: rest =>
    (anomaly_score <-? index anomaly_scores i;
     let fraud_score :=
       (1 - ((anomaly_score - (- half)) / (half - (- half))))%Qc in
     let fraud_score := py_max 0%Qc (py_min 1%Qc fraud_score) in
     prediction <-? index predictions i;
     let is_fraud :=
       bool_decide (prediction = -1)
       || bool_decide (FRAUD_THRESHOLD settings <= fraud_score)%Qc in
     batch_loop now predictions anomaly_scores (S i) rest
       (results ++
        [{| resp_id := hash (repr transaction) mod 1000000;
            resp_amount := amount transaction;
            resp_merchant := merchant transaction;
            resp_category := category transaction;
            resp_customer_id := customer_id transaction;
            is_fraud := is_fraud;
            fraud_score := py_round fraud_score 4;
            timestamp := now i |}]))%result
  end.

Definition detect_batch (now : nat -> Z) (transactions : list TransactionCreate)
  : M (list TransactionResponse) :=
  (load_if_needed ;;
   let features_list := map _extract_features transactions in
   features_array <- lift (vstack features_list) ;
   features_scaled <- scale_features features_array ;
   m <- model_attr "predict" ;
   predictions <- lift (predict m features_scaled) ;
   m <- model_attr "score_samples" ;
   anomaly_scores <- lift (score_samples m features_scaled) ;
   lift (batch_loop now predictions anomaly_scores 0 transactions []))%M.
End Detector.

(** ** The contracts of the specification, in its own words *)

(** Clamp to the unit interval. *)
Definition clamp01 (x : float) : float :=
  if bool_decide (x < 0)%Qc then 0%Qc
  else if bool_decide (1 < x)%Qc then 1%Qc
  else x.

(** Score Normalizer: [probability = 1 - (raw_score + 0.5) / 1.0], then
    clamp to the unit interval. *)
Definition normalize (raw_score : float) : float :=
  clamp01 (1 - (raw_score + half) / 1)%Qc.

(** Decision Policy: fraud if the label is anomalous (-1) or the
    probability reaches the threshold. *)
Definition decide_verdict (label : Z) (probability threshold : float) : bool :=
  bool_decide (label = -1) || bool_decide (threshold <= probability)%Qc.

(** The detector's matrices are four columns wide. *)
Definition four_wide (X : matrix) : Prop :=
  Forall (fun row => length row = 4%nat) X.

(** Scored Result of the specification: the transaction's fields, the
    assigned identifier, the verdict, the rounded probability and the
    scoring time. *)
Definition scored (hash : string -> Z) (repr : TransactionCreate -> string)
    (settings : Settings) (now : Z) (t : TransactionCreate)
    (label : Z) (raw_score : float) : TransactionResponse :=
  {| resp_id := hash (repr t) mod 1000000;
     resp_amount := amount t;
     resp_merchant := merchant t;
     resp_category := category t;
     resp_customer_id := customer_id t;
     is_fraud :=
       decide_verdict label (normalize raw_score) (FRAUD_THRESHOLD settings);
     fraud_score := py_round (normalize raw_score) 4;
     timestamp := now |}.

(** The model a freshly initialised registry holds. *)
Definition fresh_model : IsolationForest :=
  {| contamination := Q2Qc (1 # 10); random_state := 42;
     n_estimators := 100; estimators_ := None |}.

Definition fresh_registry : AnomalyDetector :=
  {| _model := Some fresh_model; _scaler := Some fresh_scaler;
     _model_loaded := true |}.

(** The registry's model answers [label] and [raw] for row [i] of [X]. *)
Definition model_gave (self : AnomalyDetector) (X : matrix) (i : nat)
    (label : Z) (raw : float) : Prop :=
  exists m ps ss,
    _model self = Some m /\
    predict m X = inr ps /\ score_samples m X = inr ss /\
    ps !! i = Some label /\ ss !! i = Some raw.

(** ** The two paths as chains of results

    What [detect] and [detect_batch] compute once the registry is
    loaded, with the state threaded away. *)

Section Views.
Variable hash : string -> Z.
Variable repr : TransactionCreate -> string.
Variable sqrt : float -> float.
Variable settings : Settings.
Variable fs : gmap string disk_file.

(** [model_path or settings.MODEL_PATH] *)
Definition resolved_path (model_path : option string) : string :=
  if truthy model_path then str model_path else MODEL_PATH settings.

(** The registry [load_model] leaves behind, read off the file system. *)
Definition registry_after_load (model_path : option string) : AnomalyDetector :=
  match fs !! resolved_path model_path with
  | Some (pickled (bundle m s)) =>
    {| _model := m; _scaler := s; _model_loaded := true |}
  | Some (pickled (legacy m)) =>
    {| _model := Some m; _scaler := Some fresh_scaler; _model_loaded := true |}
  | Some (unreadable _) | None => fresh_registry
  end.

(** The scaling step as a function of the registry's scaler. *)
Definition scaled (sc : option StandardScaler) (X : matrix) : result matrix :=
  match sc with
  | Some sc => result_map snd (fit_transform sqrt sc X)
  | None => inr X
  end.

(** Attribute access on the registry's model; [predict] is the first
    attribute either path asks for. *)
Definition model_of (m : option IsolationForest) : result IsolationForest :=
  match m with
  | Some m => inr m
  | None => inl (no_attribute "predict")
  end.

(** The single path on a registry that needs no loading: the label
    and the raw score read from the model, then the scored result. *)
Definition detect_outputs (self : AnomalyDetector) (t : TransactionCreate)
  : result (Z * float) :=
  (X <-? scaled (_scaler self) (_extract_features hash t);
   m <-? model_of (_model self);
   ps <-? predict m X;
   label <-? index ps 0;
   ss <-? score_samples m X;
   raw <-? index ss 0;
   inr (label, raw))%result.

Definition detect_result (self : AnomalyDetector) (now : Z)
    (t : TransactionCreate) : result TransactionResponse :=
  result_map (fun out => scored hash repr settings now t out.1 out.2)
    (detect_outputs self t).

(** The batch path on a registry that needs no loading: the labels
    and raw scores read from the model, then the loop. *)
Definition detect_batch_outputs (self : AnomalyDetector)
    (ts : list TransactionCreate) : result (list Z * list float) :=
  (X0 <-? vstack (map (_extract_features hash) ts);
   X <-? scaled (_scaler self) X0;
   m <-? model_of (_model self);
   ps <-? predict m X;
   ss <-? score_samples m X;
   inr (ps, ss))%result.

Definition detect_batch_result (self : AnomalyDetector) (now : nat -> Z)
    (ts : list TransactionCreate) : result (list TransactionResponse) :=
  (out <-? detect_batch_outputs self ts;
   batch_loop hash repr settings now out.1 out.2 0 ts [])%result.

End Views.

(** ** Readings of a scored result *)

(** [score] is the normalised, rounded probability of [raw]: inside the
    unit interval, saturated outside the nominal range. *)
Definition unit_score (raw score : float) : Prop :=
  score = py_round (clamp01 (1 - (raw + half) / 1)%Qc) 4 /\
  (0 <= score)%Qc /\ (score <= 1)%Qc /\
  ((raw <= - half)%Qc -> score = 1%Qc) /\
  ((half <= raw)%Qc -> score = 0%Qc).

(** [verdict] follows the disjunction of the two signals. *)
Definition or_verdict (threshold : float) (label : Z) (raw : float)
    (verdict : bool) : Prop :=
  (verdict = true <-> label = -1 \/ (threshold <= normalize raw)%Qc) /\
  (label <> -1 -> (normalize raw < threshold)%Qc -> verdict = false).


(** A fitted forest that answers every non-empty four-column matrix
    with one label and one raw score per row. *)
Definition row_wise (f : FittedForest) : Prop :=
  forall X : matrix,
    X <> [] -> four_wide X ->
    exists ps ss,
      forest_predict f X = inr ps /\ forest_score_samples f X = inr ss /\
      length ps = length X /\ length ss = length X.

(** [needle in text]. *)
Definition occurs (needle text : string) : bool :=
  match String.index 0 needle text with
  | Some _ => true
  | None => false
  end.

(** [text.lower()] on ASCII letters. *)
Definition lower_ascii (c : Ascii.ascii) : Ascii.ascii :=
  let n := Ascii.nat_of_ascii c in
  if (65 <=? n)%nat && (n <=? 90)%nat then Ascii.ascii_of_nat (n + 32) else c.

Fixpoint lower (text : string) : string :=
  match text with
  | EmptyString => EmptyString
  | String c rest => String (lower_ascii c) (lower rest)
  end.

(** An error identifies the offending batch when its text, in any
    letter case, speaks of the batch, of the transactions in it, or of
    the input list and its being empty. *)
Definition identifies_batch (e : exn) : bool :=
  existsb (fun word => occurs word (lower (str_exn e)))
    ["batch"; "transaction"; "input"; "list"; "empty"].

(** The fields a scored result copies from its transaction. *)
Definition echoes (r : TransactionResponse) (t : TransactionCreate) : Prop :=
  resp_amount r = amount t /\ resp_merchant r = merchant t /\
  resp_category r = category t /\ resp_customer_id r = customer_id t.

(** ** A concrete installation, for worked instances *)

Module Demo.
(** A string hash with [hash "" = 0], as the interpreter's. *)
Definition hash (s : string) : Z := Z.of_nat (String.length s) * 7919.

Definition repr (t : TransactionCreate) : string :=
  str (merchant t) +:+ str (category t) +:+ str (customer_id t).

(** A square root that is exact on squares of rationals. *)
Definition sqrt (x : float) : float :=
  Q2Qc (Z.sqrt (Qnum x) # Pos.sqrt (Qden x)).

Definition q (a : Z) (b : positive) : float := Q2Qc (a # b).

(** A fitted forest that looks at the first scaled feature only: a
    row is anomalous when it lies below the batch mean, and its raw
    score is a quarter of the feature. *)
Definition forest : FittedForest :=
  row_forest
    (fun row => if bool_decide (nth 0 row 0 < 0)%Qc then -1 else 1)
    (fun row => (nth 0 row 0 / q 4 1)%Qc).

(** A fitted forest with a two-valued raw score: the top of the
    nominal range on the batch mean, the bottom elsewhere. *)
Definition step_forest : FittedForest :=
  row_forest
    (fun _ => 1)
    (fun row => if bool_decide (nth 0 row 0 = 0)%Qc then half else (- half)%Qc).

Definition fitted (f : FittedForest) : IsolationForest :=
  {| contamination := q 1 10; random_state := 42; n_estimators := 100;
     estimators_ := Some f |}.

Definition registry (f : FittedForest) : AnomalyDetector :=
  {| _model := Some (fitted f); _scaler := Some fresh_scaler;
     _model_loaded := true |}.

Definition tx (a : Z) : TransactionCreate :=
  {| amount := q a 1; merchant := None; category := None;
     customer_id := None |}.

Definition acme (a : Z) : TransactionCreate :=
  {| amount := q a 1; merchant := Some "acme"; category := Some "food";
     customer_id := Some "" |}.

Definition clock (i : nat) : Z := 1700000000 + Z.of_nat i.

(** A file system whose default artifact is a bundle without a
    ['model'] entry, next to a corrupt file and a legacy artifact. *)
Definition disk : gmap string disk_file :=
  {[ "models/isolation_forest_model.joblib" :=
       pickled (bundle None (Some fresh_scaler));
     "models/corrupt.joblib" := unreadable (OtherError "invalid load key");
     "models/legacy.joblib" := pickled (legacy (fitted forest)) ]}.
End Demo.


(** ** The registry across scoring calls *)

(** The registry a scoring call leaves behind: the scaler, when there is
    one and the matrix can be fitted, is replaced by the refitted one;
    nothing else changes. *)
Definition refit (sqrt : float -> float) (self : AnomalyDetector)
    (X : matrix) : AnomalyDetector :=
  match _scaler self with
  | Some sc =>
    match fit_transform sqrt sc X with
    | inr fitted =>
      {| _model := _model self; _scaler := Some fitted.1;
         _model_loaded := _model_loaded self |}
    | inl _ => self
    end
  | None => self
  end.

(** Two registries that differ at most in what their scalers were last
    fitted on. *)
Definition same_up_to_fit (a b : AnomalyDetector) : Prop :=
  _model a = _model b /\ _model_loaded a = _model_loaded b /\
  (_scaler a = None <-> _scaler b = None).

(** What a caller can tell two scored results apart by, the echoed
    transaction aside. *)
Definition outcome (r : TransactionResponse) : float * bool :=
  (fraud_score r, is_fraud r).

(** ** The serving layer ([app/api/routes.py], [app/main.py])

    The routes run one after the other against the process-wide
    detector.  What the platform contributes (CSV parsing, number and
    text conversions, request validation messages, the rendering of an
    [HTTPException], the database's ordering) is gathered in the record
    [Runtime]; the database reached through a session either answers
    from its table or raises on every query. *)

(** [AnomalyDetector._instance]. *)
Record AnomalyDetector_class := {
  _instance : option AnomalyDetector
}.

Definition C (A : Type) : Type :=
  AnomalyDetector_class -> AnomalyDetector_class * result A.

(** [AnomalyDetector.__new__]: the instance starts with the class
    attributes, [None], [None] and [False]. *)
Definition new : C unit :=
  fun cls =>
    match _instance cls with
    | None => ({| _instance := Some unloaded |}, Ok tt)
    | Some _ => (cls, Ok tt)
    end.

Definition get_instance : C unit :=
  fun cls =>
    match _instance cls with
    | None => new cls
    | Some _ => (cls, Ok tt)
    end.

(** A call of the method [name] on the instance the class holds. *)
Definition on_instance {A} (name : string) (method : M A) : C A :=
  fun cls =>
    match _instance cls with
    | Some self =>
      ({| _instance := Some (method self).1 |}, (method self).2)
    | None => (cls, Raise (no_attribute name))
    end.

Record HTTPException := {
  status_code : Z;
  detail : string
}.

Record DetectionRequest := {
  transactions : list TransactionCreate
}.

Record DetectionResponse := {
  results : list TransactionResponse;
  total_transactions : Z;
  fraud_count : Z;
  normal_count : Z
}.

(** [len(l)] and [sum(l)]. *)
Definition len {A} (l : list A) : Z := Z.of_nat (length l).

Definition py_sum (l : list Z) : Z := fold_left Z.add l 0.

(** [s.endswith(suffix)]. *)
Definition endswith (s suffix : string) : bool :=
  let n := String.length s in
  let k := String.length suffix in
  (k <=? n)%nat && String.eqb (String.substring (n - k) k s) suffix.

(** A cell of a parsed CSV file. *)
Inductive cell :=
| cell_num (x : float)
| cell_nan
| cell_str (s : string).

Record DataFrame := {
  columns : list string;
  rows : list (gmap string cell)
}.

Record UploadFile := {
  filename : option string;
  contents : string
}.

(** A Python float that may be [nan]. *)
Inductive pyfloat :=
| finite (x : float)
| not_a_number.

(** What can be raised inside a route body. *)
Inductive raised :=
| raised_exn (e : exn)
| raised_http (h : HTTPException)
| raised_empty_data (msg : string).

Module models.
(** A row of the [transactions] table ([app/database/models.py]). *)
Record Transaction := {
  id : Z;
  amount : float;
  merchant : option string;
  category : option string;
  customer_id : option string;
  is_fraud : option bool;
  fraud_score : option float;
  timestamp : option Z;
  raw_data : option string
}.
End models.

Inductive Session :=
| live (table : list models.Transaction)
| broken (e : exn).

Record Runtime := {
  (** [pd.read_csv] on the uploaded bytes *)
  read_csv : string -> raised + DataFrame;
  (** [float(s)] on a string, [None] when it raises [ValueError] *)
  float_of_string : string -> option pyfloat;
  (** [str(x)] on a number *)
  str_of_num : float -> string;
  (** request validation of an optional text field given a cell that is
      not a string: the text it is coerced to, or [None] when refused *)
  coerce_text : cell -> option string;
  (** the message of a request validation error *)
  validation_message : string;
  (** [str(e)] of an [HTTPException] *)
  str_http : HTTPException -> string;
  (** [ORDER BY timestamp DESC] *)
  order_by_timestamp_desc : list models.Transaction -> list models.Transaction
}.

Record StatsResponse := {
  stats_total_transactions : Z;
  fraud_transactions : Z;
  normal_transactions : Z;
  fraud_rate : float;
  last_updated : option Z
}.

Record HealthBody := {
  status : string;
  version : string;
  database : string;
  model_loaded : bool;
  health_timestamp : Z
}.

Record JSONResponse := {
  response_status_code : Z;
  response_error : string
}.

Section Routes.
Variable hash : string -> Z.
Variable repr : TransactionCreate -> string.
Variable sqrt : float -> float.
Variable settings : Settings.
Variable fs : gmap string disk_file.
Variable rt : Runtime.

(** The counting and the response both detection routes end with. *)
Definition detection_response (results : list TransactionResponse)
  : DetectionResponse :=
  let fraud_count :=
    py_sum (map (fun _ => 1) (List.filter is_fraud results)) in
  let normal_count := len results - fraud_count in
  {| results := results;
     total_transactions := len results;
     fraud_count := fraud_count;
     normal_count := normal_count |}.

(** [POST /api/v1/detect] *)
Definition detect_fraud (clock : nat -> Z) (request : DetectionRequest)
    (cls : AnomalyDetector_class)
  : AnomalyDetector_class * (HTTPException + DetectionResponse) :=
  let cls := (get_instance cls).1 in
  let call :=
    on_instance "detect_batch"
      (detect_batch hash repr sqrt settings fs clock (transactions request))
      cls in
  match call.2 with
  | inr results => (call.1, inr (detection_response results))
  | inl e =>
    (call.1,
     inl {| status_code := 500;
            detail := "Error during detection: " +:+ str_exn e |})
  end.

(** [float(row['amount'])] *)
Definition float_of_cell (c : cell) : raised + pyfloat :=
  match c with
  | cell_num x => inr (finite x)
  | cell_nan => inr not_a_number
  | cell_str s =>
    match float_of_string rt s with
    | Some f => inr f
    | None =>
      inl (raised_exn (ValueError "could not convert string to float"))
    end
  end.

(** [str(row.get('customer_id', ''))] *)
Definition str_of_cell (c : option cell) : string :=
  match c with
  | None => ""
  | Some (cell_str s) => s
  | Some (cell_num x) => str_of_num rt x
  | Some cell_nan => "nan"
  end.

(** Validation of an [Optional[str]] field. *)
Definition validate_text (c : option cell) : option (option string) :=
  match c with
  | None => Some None
  | Some (cell_str s) => Some (Some s)
  | Some c => option_map Some (coerce_text rt c)
  end.

(** [TransactionCreate(amount=..., merchant=..., category=...,
    customer_id=...)], with [amount] constrained by [gt=0]. *)
Definition new_TransactionCreate (amount : pyfloat)
    (merchant category : option cell) (customer_id : string)
  : raised + TransactionCreate :=
  let refused := inl (raised_exn (OtherError (validation_message rt))) in
  match amount with
  | finite x =>
    if bool_decide (0 < x)%Qc then
      match validate_text merchant, validate_text category with
      | Some m, Some c =>
        inr {| amount := x; merchant := m; category := c;
               customer_id := Some customer_id |}
      | _, _ => refused
      end
    else refused
  | not_a_number => refused
  end.

Definition row_to_transaction (row : gmap string cell)
  : raised + TransactionCreate :=
  match row !! "amount" with
  | None => inl (raised_exn (OtherError "'amount'"))
  | Some c =>
    match float_of_cell c with
    | inl e => inl e
    | inr amount =>
      new_TransactionCreate amount (row !! "merchant") (row !! "category")
        (str_of_cell (row !! "customer_id"))
    end
  end.

(** The [for _, row in df.iterrows()] loop. *)
Fixpoint rows_to_transactions (rows : list (gmap string cell))
    (transactions : list TransactionCreate)
  : raised + list TransactionCreate :=
  match rows with
  | [] => inr transactions
  | row :: rest =>
    match row_to_transaction row with
    | inl e => inl e
    | inr t => rows_to_transactions rest (transactions ++ [t])
    end
  end.

Definition str_raised (e : raised) : string :=
  match e with
  | raised_exn e => str_exn e
  | raised_http h => str_http rt h
  | raised_empty_data msg => msg
  end.

(** The [try] block of [POST /api/v1/upload]. *)
Definition upload_body (clock : nat -> Z) (file : UploadFile)
    (cls : AnomalyDetector_class)
  : AnomalyDetector_class * (raised + DetectionResponse) :=
  if negb (truthy (filename file))
     || negb (endswith (str (filename file)) ".csv")
  then
    (cls, inl (raised_http {| status_code := 400;
                              detail := "File must be a CSV file" |}))
  else
    match read_csv rt (contents file) with
    | inl e => (cls, inl e)
    | inr df =>
      let required_columns := ["amount"] in
      let missing_columns :=
        List.filter (fun col => negb (bool_decide (col ∈ columns df)))
          required_columns in
      match missing_columns with
      | _ :: _ =>
        (cls,
         inl (raised_http
                {| status_code := 400;
                   detail := "Missing required columns: "
                             +:+ String.concat ", " missing_columns |}))
      | [] =>
        match rows_to_transactions (rows df) [] with
        | inl e => (cls, inl e)
        | inr transactions =>
          let call :=
            on_instance "detect_batch"
              (detect_batch hash repr sqrt settings fs clock transactions)
              cls in
          match call.2 with
          | inl e => (call.1, inl (raised_exn e))
          | inr results => (call.1, inr (detection_response results))
          end
        end
      end
    end.

(** [POST /api/v1/upload]: the body under its two handlers. *)
Definition upload_transactions (clock : nat -> Z) (file : UploadFile)
    (cls : AnomalyDetector_class)
  : AnomalyDetector_class * (HTTPException + DetectionResponse) :=
  let cls := (get_instance cls).1 in
  let run := upload_body clock file cls in
  match run.2 with
  | inr response => (run.1, inr response)
  | inl (raised_empty_data _) =>
    (run.1, inl {| status_code := 400; detail := "CSV file is empty" |})
  | inl e =>
    (run.1,
     inl {| status_code := 500;
            detail := "Error processing file: " +:+ str_raised e |})
  end.

(** The queries of [GET /api/v1/stats]. *)
Definition query_count (db : Session) : result Z :=
  match db with
  | live table => Ok (len table)
  | broken e => Raise e
  end.

Definition query_count_fraud (db : Session) : result Z :=
  match db with
  | live table =>
    Ok (len (List.filter
               (fun row => bool_decide (models.is_fraud row = Some true))
               table))
  | broken e => Raise e
  end.

Definition query_latest (db : Session) : result (option models.Transaction) :=
  match db with
  | live table => Ok (head (order_by_timestamp_desc rt table))
  | broken e => Raise e
  end.

(** [GET /api/v1/stats] *)
Definition get_statistics (db : Session) : HTTPException + StatsResponse :=
  let body : result StatsResponse :=
    (total <-? query_count db;
     fraud_count <-? query_count_fraud db;
     let normal_count := total - fraud_count in
     let fraud_rate :=
       if bool_decide (0 < total)
       then (of_int fraud_count / of_int total * of_int 100)%Qc
       else 0%Qc in
     last_transaction <-? query_latest db;
     let last_updated :=
       match last_transaction with
       | Some row => models.timestamp row
       | None => None
       end in
     Ok {| stats_total_transactions := total;
           fraud_transactions := fraud_count;
           normal_transactions := normal_count;
           fraud_rate := py_round fraud_rate 2;
           last_updated := last_updated |})%result in
  match body with
  | inr stats => inr stats
  | inl e =>
    inl {| status_code := 500;
           detail := "Error retrieving statistics: " +:+ str_exn e |}
  end.

(** [GET /api/v1/health] *)
Definition health_check (db : Session) (now : Z) (cls : AnomalyDetector_class)
  : AnomalyDetector_class * (JSONResponse + HealthBody) :=
  let db_status :=
    match db with
    | live _ => "connected"
    | broken _ => "disconnected"
    end in
  let cls := (get_instance cls).1 in
  let call := on_instance "is_model_loaded" is_model_loaded cls in
  match call.2 with
  | inr model_loaded =>
    let status :=
      if String.eqb db_status "connected" && model_loaded
      then "healthy" else "degraded" in
    (call.1,
     inr {| status := status; version := "1.0"; database := db_status;
            model_loaded := model_loaded; health_timestamp := now |})
  | inl e =>
    (call.1,
     inl {| response_status_code := 503; response_error := str_exn e |})
  end.

(** [init_db] and the startup half of [lifespan] ([app/main.py]):
    create the tables, then load the model; an exception is logged and
    raised again. *)
Definition init_db (db : Session) : result unit :=
  match db with
  | live _ => Ok tt
  | broken e => Raise e
  end.

Definition startup (db : Session) : C unit :=
  fun cls =>
    match init_db db with
    | inl e => (cls, inl e)
    | inr _ =>
      let cls := (get_instance cls).1 in
      on_instance "load_model" (load_model settings fs None) cls
    end.
End Routes.

(** The detector a route works on: the instance the class holds, or the
    one [get_instance] creates. *)
Definition instance_of (cls : AnomalyDetector_class) : AnomalyDetector :=
  match _instance cls with
  | Some self => self
  | None => unloaded
  end.

(** The file name passes the check of the upload route. *)
Definition csv_name (file : UploadFile) : bool :=
  truthy (filename file) && endswith (str (filename file)) ".csv".

(** ** A concrete serving layer, for worked instances *)

Module DemoService.
Definition frame : DataFrame :=
  {| columns := ["amount"; "merchant"];
     rows := [ {[ "amount" := cell_num (Demo.q 10 1);
                  "merchant" := cell_str "acme" ]};
               {[ "amount" := cell_num (Demo.q 5000 1);
                  "merchant" := cell_str "zed" ]};
               {[ "amount" := cell_num (Demo.q 12 1);
                  "merchant" := cell_str "acme" ]} ] |}.

Definition frame_without_amount : DataFrame :=
  {| columns := ["merchant"];
     rows := [ {[ "merchant" := cell_str "acme" ]} ] |}.

Definition header_only : DataFrame :=
  {| columns := ["amount"; "merchant"]; rows := [] |}.

(** A platform whose parser knows four files by their contents. *)
Definition runtime : Runtime :=
  {| read_csv := fun contents =>
       if String.eqb contents "" then
         inl (raised_empty_data "No columns to parse from file")
       else if String.eqb contents "amount,merchant;10,acme;5000,zed;12,acme"
       then inr frame
       else if String.eqb contents "merchant;acme"
       then inr frame_without_amount
       else if String.eqb contents "amount,merchant" then inr header_only
       else inl (raised_exn (OtherError "Error tokenizing data"));
     float_of_string := fun _ => None;
     str_of_num := fun _ => "0";
     coerce_text := fun _ => None;
     validation_message := "validation error";
     str_http := fun h => detail h;
     order_by_timestamp_desc := fun table => table |}.

Definition csv_file : UploadFile :=
  {| filename := Some "transactions.csv";
     contents := "amount,merchant;10,acme;5000,zed;12,acme" |}.

Definition text_file : UploadFile :=
  {| filename := Some "transactions.txt";
     contents := "amount,merchant;10,acme;5000,zed;12,acme" |}.

Definition csv_without_amount : UploadFile :=
  {| filename := Some "merchants.csv"; contents := "merchant;acme" |}.

Definition csv_header_only : UploadFile :=
  {| filename := Some "empty.csv"; contents := "amount,merchant" |}.

Definition csv_empty : UploadFile :=
  {| filename := Some "blank.csv"; contents := "" |}.

(** A file system with a fitted bundle at the default path, one with
    the same forest as a legacy artifact, and one with no artifact. *)
Definition disk_bundle : gmap string disk_file :=
  {[ "models/isolation_forest_model.joblib" :=
       pickled (bundle (Some (Demo.fitted Demo.forest)) (Some fresh_scaler)) ]}.

Definition disk_legacy : gmap string disk_file :=
  {[ "models/isolation_forest_model.joblib" :=
       pickled (legacy (Demo.fitted Demo.forest)) ]}.

Definition disk_bare : gmap string disk_file := ∅.

Definition no_instance : AnomalyDetector_class := {| _instance := None |}.

Definition row (n : Z) (flag : option bool) : models.Transaction :=
  {| models.id := n; models.amount := Demo.q 10 1;
     models.merchant := None; models.category := None;
     models.customer_id := None; models.is_fraud := flag;
     models.fraud_score := None; models.timestamp := Some n;
     models.raw_data := None |}.

Definition table : list models.Transaction :=
  [row 1 (Some true); row 2 (Some false); row 3 None].
End DemoService.

(** * Properties *)

(** ** Arithmetic on canonical rationals *)

Lemma Qc_this_plus (x y : Qc) : (this (x + y)%Qc == this x + this y)%Q.
Proof. unfold Qcplus, Q2Qc; cbn [this]. apply Qred_correct. Qed.

Lemma Qc_this_mult (x y : Qc) : (this (x * y)%Qc == this x * this y)%Q.
Proof. unfold Qcmult, Q2Qc; cbn [this]. apply Qred_correct. Qed.

Lemma Qc_this_opp (x : Qc) : (this (- x)%Qc == - this x)%Q.
Proof. unfold Qcopp, Q2Qc; cbn [this]. apply Qred_correct. Qed.

Lemma Qc_this_minus (x y : Qc) : (this (x - y)%Qc == this x - this y)%Q.
Proof.
  unfold Qcminus. rewrite Qc_this_plus, Qc_this_opp. reflexivity.
Qed.

Lemma Qc_this_of_int (n : Z) : this (of_int n) = inject_Z n.
Proof. reflexivity. Qed.

Lemma Qc_this_half : this half = (1 # 2)%Q.
Proof. reflexivity. Qed.

(** Goals and hypotheses over [Qc] built from [+], [-], [*] and
    literals are sent to [lra] over [Q]. *)
Ltac qc_to_q :=
  unfold Qclt, Qcle in *;
  repeat match goal with
  | H : context [this (_ + _)%Qc] |- _ => rewrite Qc_this_plus in H
  | H : context [this (_ - _)%Qc] |- _ => rewrite Qc_this_minus in H
  | H : context [this (_ * _)%Qc] |- _ => rewrite Qc_this_mult in H
  | H : context [this (- _)%Qc] |- _ => rewrite Qc_this_opp in H
  | H : context [this (of_int _)] |- _ => rewrite Qc_this_of_int in H
  | H : context [this half] |- _ => rewrite Qc_this_half in H
  | |- context [this (_ + _)%Qc] => rewrite Qc_this_plus
  | |- context [this (_ - _)%Qc] => rewrite Qc_this_minus
  | |- context [this (_ * _)%Qc] => rewrite Qc_this_mult
  | |- context [this (- _)%Qc] => rewrite Qc_this_opp
  | |- context [this (of_int _)] => rewrite Qc_this_of_int
  | |- context [this half] => rewrite Qc_this_half
  end;
  change (this 0%Qc) with 0%Q in *;
  change (this 1%Qc) with 1%Q in *.

Ltac qc_lra := qc_to_q; lra.

Lemma Qc_eq_this (x y : Qc) : (this x == this y)%Q -> x = y.
Proof. apply Qc_is_canon. Qed.

Lemma half_minus_opp_half : (half - - half)%Qc = 1%Qc.
Proof. apply Qc_eq_this. reflexivity. Qed.

Lemma Qcdiv_1_r (x : Qc) : (x / 1)%Qc = x.
Proof. apply (right_id 1%Qc Qcdiv). Qed.

(** ** Score normalizer *)

Lemma py_clamp_clamp01 (x : float) :
  py_max 0%Qc (py_min 1%Qc x) = clamp01 x.
Proof.
  unfold py_max, py_min, clamp01.
  repeat case_bool_decide; try reflexivity; try (exfalso; qc_lra).
  all: apply Qc_eq_this; qc_lra.
Qed.

Lemma source_normalize (anomaly_score : float) :
  py_max 0%Qc
    (py_min 1%Qc (1 - ((anomaly_score - (- half)) / (half - (- half))))%Qc)
  = normalize anomaly_score.
Proof.
  rewrite py_clamp_clamp01, half_minus_opp_half. unfold normalize.
  replace (anomaly_score - - half)%Qc with (anomaly_score + half)%Qc
    by (apply Qc_eq_this; qc_lra).
  reflexivity.
Qed.

Lemma clamp01_bounds (x : float) : (0 <= clamp01 x)%Qc /\ (clamp01 x <= 1)%Qc.
Proof.
  unfold clamp01. repeat case_bool_decide; split; qc_lra.
Qed.

Lemma normalize_bounds (raw : float) :
  (0 <= normalize raw)%Qc /\ (normalize raw <= 1)%Qc.
Proof. apply clamp01_bounds. Qed.

Lemma normalize_low (raw : float) : (raw <= - half)%Qc -> normalize raw = 1%Qc.
Proof.
  intros H. unfold normalize, clamp01. rewrite Qcdiv_1_r.
  repeat case_bool_decide; try reflexivity; try (exfalso; qc_lra).
  apply Qc_eq_this. qc_lra.
Qed.

Lemma normalize_high (raw : float) : (half <= raw)%Qc -> normalize raw = 0%Qc.
Proof.
  intros H. unfold normalize, clamp01. rewrite Qcdiv_1_r.
  repeat case_bool_decide; try reflexivity; try (exfalso; qc_lra).
  apply Qc_eq_this. qc_lra.
Qed.

Lemma normalize_mid (raw : float) :
  (- half <= raw)%Qc -> (raw <= half)%Qc -> normalize raw = (half - raw)%Qc.
Proof.
  intros H1 H2. unfold normalize, clamp01. rewrite Qcdiv_1_r.
  repeat case_bool_decide; try (exfalso; qc_lra); apply Qc_eq_this; qc_lra.
Qed.

(** ** Rounding *)

Lemma Qc_this_div (x y : Qc) : (this (x / y)%Qc == this x / this y)%Q.
Proof.
  unfold Qcdiv, Qcinv, Q2Qc. rewrite Qc_this_mult. cbn [this].
  rewrite Qred_correct. reflexivity.
Qed.

Lemma round_half_even_bounds (y : float) (a b : Z) :
  (of_int a <= y)%Qc -> (y <= of_int b)%Qc ->
  a <= round_half_even y <= b.
Proof.
  intros Ha Hb. unfold round_half_even.
  assert (Hfa : a <= Qfloor y).
  { rewrite <- (Qfloor_Z a). apply Qfloor_resp_le. exact Ha. }
  assert (Hfb : Qfloor y <= b).
  { rewrite <- (Qfloor_Z b). apply Qfloor_resp_le. exact Hb. }
  pose proof (Qfloor_le y) as Hfl.
  case_bool_decide as Hd; [lia |].
  assert (Hlt : Qfloor y < b).
  { rewrite Zlt_Qlt. unfold Qcle in Hb. cbn [this of_int Qc_of_Z] in Hb.
    assert (Hd' : (half <= y - of_int (Qfloor y))%Qc) by (apply Qcnot_lt_le; exact Hd).
    qc_to_q. lra. }
  case_bool_decide; [lia |].
  destruct (Z.even (Qfloor y)); lia.
Qed.

Lemma py_round_unit (x : float) :
  (0 <= x)%Qc -> (x <= 1)%Qc ->
  (0 <= py_round x 4)%Qc /\ (py_round x 4 <= 1)%Qc.
Proof.
  intros H0 H1. unfold py_round.
  change (10 ^ Z.of_nat 4) with 10000.
  destruct (round_half_even_bounds (x * of_int 10000)%Qc 0 10000) as [Hk0 Hk1].
  { qc_to_q. change (inject_Z 10000) with (10000 # 1)%Q.
    change (inject_Z 0) with 0%Q. nra. }
  { qc_to_q. change (inject_Z 10000) with (10000 # 1)%Q. nra. }
  rewrite Zle_Qle in Hk0, Hk1.
  change (inject_Z 10000) with (10000 # 1)%Q in Hk1.
  change (inject_Z 0) with 0%Q in Hk0.
  unfold Qcle. rewrite !Qc_this_div, !Qc_this_of_int.
  change (this 0%Qc) with 0%Q. change (this 1%Qc) with 1%Q.
  change (inject_Z 10000) with (10000 # 1)%Q.
  set (k := inject_Z _) in *. clearbody k.
  split.
  - apply Qle_shift_div_l; lra.
  - apply Qle_shift_div_r; lra.
Qed.

Lemma py_round_0 : py_round 0%Qc 4 = 0%Qc.
Proof. apply Qc_eq_this. reflexivity. Qed.

Lemma py_round_1 : py_round 1%Qc 4 = 1%Qc.
Proof. apply Qc_eq_this. reflexivity. Qed.

(** ** The scaler *)

Lemma of_int_1 : of_int 1 = 1%Qc.
Proof. apply Qc_eq_this. reflexivity. Qed.

Lemma Qcsum_single (a : float) : Qcsum [a] = a.
Proof. unfold Qcsum. cbn. apply Qcplus_0_r. Qed.

Lemma col_mean_single (a : float) : col_mean [a] = a.
Proof.
  unfold col_mean. cbn [length]. change (Z.of_nat 1) with 1.
  rewrite of_int_1, Qcsum_single. apply Qcdiv_1_r.
Qed.

Lemma col_var_single (a : float) : col_var [a] = 0%Qc.
Proof.
  unfold col_var. rewrite col_mean_single. cbn [length map].
  change (Z.of_nat 1) with 1. rewrite of_int_1, Qcsum_single, Qcdiv_1_r.
  apply Qc_eq_this. qc_lra.
Qed.

Lemma centered_single (a : float) : ((a - a) / 1)%Qc = 0%Qc.
Proof. rewrite Qcdiv_1_r. apply Qc_eq_this. qc_lra. Qed.

Section ScalerFacts.
Variable sqrt : float -> float.

Lemma col_scale_single (a : float) : col_scale sqrt [a] = 1%Qc.
Proof.
  unfold col_scale. rewrite col_var_single.
  rewrite bool_decide_eq_true_2; reflexivity.
Qed.

(** A one-row matrix is scaled to the zero row. *)
Lemma fit_transform_single (sc : StandardScaler) (a b c d : float) :
  fit_transform sqrt sc [[a; b; c; d]]
  = inr ({| mean_ := Some [a; b; c; d];
            scale_ := Some [1; 1; 1; 1]%Qc |},
         [[0; 0; 0; 0]]%Qc).
Proof.
  unfold fit_transform, fit, transform, result_bind, Ok.
  cbn [n_features length seq map column nth mean_ scale_].
  rewrite !col_mean_single, !col_scale_single.
  cbn [transform_row zip_with zip fst snd].
  rewrite !centered_single. reflexivity.
Qed.

(** Fitting consults the matrix only: whatever was fitted before is
    forgotten. *)
Lemma fit_transform_refit (sc sc' : StandardScaler) (X : matrix) :
  fit_transform sqrt sc X = fit_transform sqrt sc' X.
Proof. reflexivity. Qed.

Lemma fit_transform_ok (sc : StandardScaler) (X : matrix) :
  X <> [] ->
  exists sc' X', fit_transform sqrt sc X = inr (sc', X').
Proof.
  intros HX. destruct X as [| row X]; [done |].
  unfold fit_transform, fit, transform, result_bind, Ok. cbn [mean_ scale_].
  eexists _, _. reflexivity.
Qed.

Lemma fit_transform_shape (sc sc' : StandardScaler) (X0 X' : matrix) :
  fit_transform sqrt sc X0 = inr (sc', X') ->
  length X' = length X0 /\ (four_wide X0 -> four_wide X').
Proof.
  unfold fit_transform, fit, transform, result_bind, Ok.
  destruct X0 as [| row X] eqn:HX; [discriminate |]. rewrite <- HX.
  cbn [mean_ scale_]. intros [= <- <-]. split; [apply length_map |].
  intros Hw. unfold four_wide in *.
  assert (Hn : n_features X0 = 4%nat).
  { rewrite HX in *. cbn. by inversion Hw. }
  rewrite Hn. rewrite Forall_map. eapply Forall_impl; [| exact Hw].
  intros r Hr. cbn beta in *. unfold compose, transform_row.
  rewrite length_zip_with, length_zip, !length_map, length_seq.
  lia.
Qed.
End ScalerFacts.

(** ** What the detector computes *)

Ltac run_M :=
  unfold bind, ret, lift, raise, get, put, try_except, set_model, set_scaler,
    set_model_loaded, Ok, Raise in *;
  cbn [fst snd _model _scaler _model_loaded result_bind] in *.

Section DetectorFacts.
Variable hash : string -> Z.
Variable repr : TransactionCreate -> string.
Variable sqrt : float -> float.
Variable settings : Settings.
Variable fs : gmap string disk_file.

Lemma load_model_run (model_path : option string) (self : AnomalyDetector) :
  load_model settings fs model_path self
  = (registry_after_load settings fs model_path, inr tt).
Proof.
  unfold load_model, registry_after_load, resolved_path, _initialize_model.
  destruct (fs !! _) as [[[m s | m] | e] |]; reflexivity.
Qed.

Lemma load_if_needed_ok (self : AnomalyDetector) :
  (load_if_needed settings fs self).2 = inr tt.
Proof.
  unfold load_if_needed. run_M.
  destruct (negb _ || _); [| reflexivity].
  rewrite load_model_run. reflexivity.
Qed.

Lemma load_if_needed_loaded (self : AnomalyDetector) :
  _model_loaded self = true -> _model self <> None ->
  load_if_needed settings fs self = (self, inr tt).
Proof.
  intros Hl Hm. unfold load_if_needed. run_M.
  rewrite Hl, bool_decide_eq_false_2 by exact Hm. reflexivity.
Qed.

Lemma detect_run (now : Z) (t : TransactionCreate) (self : AnomalyDetector) :
  (detect hash repr sqrt settings fs now t self).2
  = detect_result hash repr sqrt settings (load_if_needed settings fs self).1 now t.
Proof.
  unfold detect, detect_result, detect_outputs.
  pose proof (load_if_needed_ok self) as Hl.
  unfold bind at 1.
  destruct (load_if_needed settings fs self) as [self1 u]. cbn [snd fst] in *.
  subst u. unfold scaled, model_of, scale_features, model_attr.
  run_M. unfold result_map, result_bind, Ok.
  destruct (_model self1) as [m |] eqn:Hm;
    (destruct (_scaler self1) as [sc |];
     [destruct (fit_transform sqrt sc _) as [e | [sc' X]] |];
     cbn [fst snd _model]; rewrite ?Hm; try reflexivity).
  all: destruct (predict m _) as [e | ps]; cbn [fst snd _model]; [reflexivity |].
  all: destruct (index ps 0) as [e | p]; cbn [fst snd _model]; [reflexivity |].
  all: rewrite ?Hm.
  all: destruct (score_samples m _) as [e | ss]; cbn [fst snd _model]; [reflexivity |].
  all: destruct (index ss 0) as [e | s]; cbn [fst snd _model]; [reflexivity |].
  all: rewrite source_normalize; reflexivity.
Qed.

Lemma detect_batch_run (now : nat -> Z) (ts : list TransactionCreate)
    (self : AnomalyDetector) :
  (detect_batch hash repr sqrt settings fs now ts self).2
  = detect_batch_result hash repr sqrt settings (load_if_needed settings fs self).1 now ts.
Proof.
  unfold detect_batch, detect_batch_result, detect_batch_outputs.
  pose proof (load_if_needed_ok self) as Hl.
  unfold bind at 1.
  destruct (load_if_needed settings fs self) as [self1 u]. cbn [snd fst] in *.
  subst u. unfold scaled, model_of, scale_features, model_attr.
  run_M. unfold result_map, result_bind, Ok.
  destruct (vstack _) as [e | X0]; cbn [fst snd _model]; [reflexivity |].
  destruct (_model self1) as [m |] eqn:Hm;
    (destruct (_scaler self1) as [sc |];
     [destruct (fit_transform sqrt sc _) as [e | [sc' X]] |];
     cbn [fst snd _model]; rewrite ?Hm; try reflexivity).
  all: destruct (predict m _) as [e | ps]; cbn [fst snd _model]; [reflexivity |].
  all: rewrite ?Hm.
  all: destruct (score_samples m _) as [e | ss]; cbn [fst snd _model]; reflexivity.
Qed.

Lemma batch_loop_inv (now : nat -> Z) (ps : list Z) (ss : list float)
    (ts : list TransactionCreate) :
  forall (i : nat) (acc rs : list TransactionResponse),
    batch_loop hash repr settings now ps ss i ts acc = inr rs ->
    exists new,
      rs = acc ++ new /\ length new = length ts /\
      forall (k : nat) (t : TransactionCreate),
        ts !! k = Some t ->
        exists label raw,
          ps !! (i + k)%nat = Some label /\ ss !! (i + k)%nat = Some raw /\
          new !! k = Some (scored hash repr settings (now (i + k)%nat) t label raw).
Proof.
  induction ts as [| t ts IH]; intros i acc rs H; cbn [batch_loop] in H.
  - injection H as <-. exists []. rewrite app_nil_r.
    repeat split. intros k t Hk. rewrite lookup_nil in Hk. discriminate.
  - unfold index, result_bind, Ok, Raise in H.
    destruct (ss !! i) as [raw |] eqn:Hs; [| discriminate].
    destruct (ps !! i) as [label |] eqn:Hp; [| discriminate].
    rewrite source_normalize in H.
    apply IH in H as (new & -> & Hlen & Hrows).
    exists (scored hash repr settings (now i) t label raw :: new).
    split; [rewrite <- app_assoc; reflexivity |].
    split; [cbn; rewrite Hlen; reflexivity |].
    intros [| k] t' Hk; cbn in Hk.
    + injection Hk as <-. exists label, raw.
      rewrite Nat.add_0_r. repeat split; assumption.
    + destruct (Hrows k t' Hk) as (l' & r' & Hl' & Hr' & Hn').
      exists l', r'. rewrite Nat.add_succ_r. repeat split; assumption.
Qed.

Lemma batch_loop_ok (now : nat -> Z) (ps : list Z) (ss : list float)
    (ts : list TransactionCreate) :
  forall (i : nat) (acc : list TransactionResponse),
    (i + length ts <= length ps)%nat -> (i + length ts <= length ss)%nat ->
    exists rs, batch_loop hash repr settings now ps ss i ts acc = inr rs.
Proof.
  induction ts as [| t ts IH]; intros i acc Hp Hs; cbn [batch_loop].
  - eexists; reflexivity.
  - cbn [length] in Hp, Hs. unfold index, result_bind, Ok, Raise.
    destruct (lookup_lt_is_Some_2 ss i) as [raw ->]; [lia |].
    destruct (lookup_lt_is_Some_2 ps i) as [label ->]; [lia |].
    apply IH; lia.
Qed.

Lemma result_bind_inr {A B} (c : result A) (k : A -> result B) (b : B) :
  result_bind c k = inr b -> exists a, c = inr a /\ k a = inr b.
Proof. destruct c as [e | a]; [discriminate |]. intros H. by exists a. Qed.

Lemma index_inr {A} (l : list A) (i : nat) (x : A) :
  index l i = inr x <-> l !! i = Some x.
Proof.
  unfold index, Ok, Raise. destruct (l !! i); split; intros H; by simplify_eq.
Qed.

Lemma model_of_inr (o : option IsolationForest) (m : IsolationForest) :
  model_of o = inr m <-> o = Some m.
Proof. destruct o; split; intros H; by simplify_eq/=. Qed.

Lemma detect_result_inv (self : AnomalyDetector) (now : Z)
    (t : TransactionCreate) (r : TransactionResponse) :
  detect_result hash repr sqrt settings self now t = inr r ->
  exists X m ps ss label raw,
    scaled sqrt (_scaler self) (_extract_features hash t) = inr X /\
    _model self = Some m /\
    predict m X = inr ps /\ score_samples m X = inr ss /\
    ps !! 0%nat = Some label /\ ss !! 0%nat = Some raw /\
    r = scored hash repr settings now t label raw.
Proof.
  unfold detect_result, result_map. intros H.
  apply result_bind_inr in H as ([label0 raw0] & H & [= <-]).
  unfold detect_outputs in H.
  apply result_bind_inr in H as (X & HX & H).
  apply result_bind_inr in H as (m & Hm & H).
  apply result_bind_inr in H as (ps & Hps & H).
  apply result_bind_inr in H as (label & Hl & H).
  apply result_bind_inr in H as (ss & Hss & H).
  apply result_bind_inr in H as (raw & Hr & H).
  apply model_of_inr in Hm. apply index_inr in Hl, Hr.
  injection H as <- <-. by exists X, m, ps, ss, label, raw.
Qed.

Lemma stacked_features (ts : list TransactionCreate) :
  length (concat (map (_extract_features hash) ts)) = length ts /\
  four_wide (concat (map (_extract_features hash) ts)).
Proof.
  induction ts as [| t ts [IHl IHw]]; [split; [done | constructor] |].
  split; [cbn; by rewrite IHl |].
  cbn. constructor; [reflexivity | exact IHw].
Qed.

Lemma vstack_features (ts : list TransactionCreate) (X0 : matrix) :
  vstack (map (_extract_features hash) ts) = inr X0 ->
  ts <> [] /\ X0 = concat (map (_extract_features hash) ts).
Proof.
  destruct ts as [| t ts]; [discriminate |].
  unfold vstack. cbn [map]. intros [= <-]. by split.
Qed.

Lemma scaled_shape (sc : option StandardScaler) (X0 X : matrix) :
  scaled sqrt sc X0 = inr X ->
  length X = length X0 /\ (four_wide X0 -> four_wide X).
Proof.
  destruct sc as [sc |]; cbn.
  - unfold result_map. intros H.
    apply result_bind_inr in H as ([sc' X'] & Hf & [= <-]).
    exact (fit_transform_shape sqrt sc sc' X0 X' Hf).
  - intros [= <-]. by split.
Qed.

Lemma scaled_ok (sc : option StandardScaler) (X0 : matrix) :
  X0 <> [] -> exists X, scaled sqrt sc X0 = inr X.
Proof.
  intros HX. destruct sc as [sc |]; cbn; [| by eexists].
  destruct (fit_transform_ok sqrt sc X0 HX) as (sc' & X' & ->).
  by eexists.
Qed.

Lemma detect_batch_result_inv (self : AnomalyDetector) (now : nat -> Z)
    (ts : list TransactionCreate) (rs : list TransactionResponse) :
  detect_batch_result hash repr sqrt settings self now ts = inr rs ->
  ts <> [] /\
  exists X m ps ss,
    scaled sqrt (_scaler self) (concat (map (_extract_features hash) ts)) = inr X /\
    _model self = Some m /\
    predict m X = inr ps /\ score_samples m X = inr ss /\
    length rs = length ts /\
    forall (i : nat) (t : TransactionCreate),
      ts !! i = Some t ->
      exists label raw,
        ps !! i = Some label /\ ss !! i = Some raw /\
        rs !! i = Some (scored hash repr settings (now i) t label raw).
Proof.
  unfold detect_batch_result. intros H.
  apply result_bind_inr in H as ([ps0 ss0] & Ho & H).
  unfold detect_batch_outputs in Ho.
  apply result_bind_inr in Ho as (X0 & HX0 & Ho).
  apply result_bind_inr in Ho as (X & HX & Ho).
  apply result_bind_inr in Ho as (m & Hm & Ho).
  apply result_bind_inr in Ho as (ps & Hps & Ho).
  apply result_bind_inr in Ho as (ss & Hss & Ho).
  injection Ho as <- <-. cbn [fst snd] in H.
  apply vstack_features in HX0 as (Hne & ->).
  apply model_of_inr in Hm.
  apply batch_loop_inv in H as (new & -> & Hlen & Hrows).
  split; [exact Hne |]. exists X, m, ps, ss. by repeat split.
Qed.

(** Every result of the single path is the scored result of the
    transaction, for the label and raw score the model gave on the
    scaled features. *)
Lemma detect_scored (now : Z) (t : TransactionCreate)
    (self : AnomalyDetector) (r : TransactionResponse) :
  (detect hash repr sqrt settings fs now t self).2 = inr r ->
  let self1 := (load_if_needed settings fs self).1 in
  exists X label raw,
    scaled sqrt (_scaler self1) (_extract_features hash t) = inr X /\
    model_gave self1 X 0 label raw /\
    r = scored hash repr settings now t label raw.
Proof.
  rewrite detect_run. intros H self1.
  apply detect_result_inv in H
    as (X & m & ps & ss & label & raw & HX & Hm & Hps & Hss & Hl & Hr & ->).
  exists X, label, raw. repeat split; [exact HX |].
  by exists m, ps, ss.
Qed.

(** Every result list of the batch path has one entry per transaction,
    in order: entry [i] is the scored result of transaction [i] for
    the label and raw score the model gave on row [i]. *)
Lemma detect_batch_scored (now : nat -> Z) (ts : list TransactionCreate)
    (self : AnomalyDetector) (rs : list TransactionResponse) :
  (detect_batch hash repr sqrt settings fs now ts self).2 = inr rs ->
  let self1 := (load_if_needed settings fs self).1 in
  ts <> [] /\ length rs = length ts /\
  exists X,
    scaled sqrt (_scaler self1) (concat (map (_extract_features hash) ts)) = inr X /\
    (forall (i : nat) (t : TransactionCreate),
        ts !! i = Some t ->
        exists label raw,
          model_gave self1 X i label raw /\
          rs !! i = Some (scored hash repr settings (now i) t label raw)) /\
    (forall (i : nat) (r : TransactionResponse),
        rs !! i = Some r ->
        exists t label raw,
          ts !! i = Some t /\ model_gave self1 X i label raw /\
          r = scored hash repr settings (now i) t label raw).
Proof.
  rewrite detect_batch_run. intros H self1.
  apply detect_batch_result_inv in H
    as (Hne & X & m & ps & ss & HX & Hm & Hps & Hss & Hlen & Hrows).
  split; [exact Hne |]. split; [exact Hlen |].
  exists X. split; [exact HX |].
  assert (Hfwd : forall (i : nat) (t : TransactionCreate),
    ts !! i = Some t ->
    exists label raw,
      model_gave self1 X i label raw /\
      rs !! i = Some (scored hash repr settings (now i) t label raw)).
  { intros i t Ht. destruct (Hrows i t Ht) as (label & raw & Hl & Hr & Hi).
    exists label, raw. split; [by exists m, ps, ss | exact Hi]. }
  split; [exact Hfwd |].
  intros i r Hi.
  destruct (lookup_lt_is_Some_2 ts i) as [t Ht].
  { rewrite <- Hlen. eapply lookup_lt_Some. exact Hi. }
  destruct (Hfwd i t Ht) as (label & raw & Hg & Hi').
  exists t, label, raw. rewrite Hi in Hi'. injection Hi' as ->. by repeat split.
Qed.

Lemma lookup_map {A B} (f : A -> B) (l : list A) (i : nat) :
  map f l !! i = f <$> l !! i.
Proof.
  revert i. induction l as [| a l IH]; intros [| i]; cbn; try reflexivity.
  apply IH.
Qed.

(** Row [i] of the stacked matrix is the feature vector of
    transaction [i]. *)
Lemma stacked_lookup (ts : list TransactionCreate) (i : nat)
    (t : TransactionCreate) :
  ts !! i = Some t ->
  exists row,
    _extract_features hash t = [row] /\
    concat (map (_extract_features hash) ts) !! i = Some row.
Proof.
  revert i. induction ts as [| t0 ts IH]; intros [| i] Hi; try discriminate.
  - injection Hi as ->. eexists. split; reflexivity.
  - destruct (IH i Hi) as (row & Hrow & Hl). exists row. split; [exact Hrow |].
    exact Hl.
Qed.

(** The single path against a forest that answers row by row. *)
Lemma row_forest_single (self : AnomalyDetector) (m : IsolationForest)
    (label_of : list float -> Z) (score_of : list float -> float)
    (now : Z) (t : TransactionCreate) (row : list float) :
  _model_loaded self = true -> _model self = Some m ->
  estimators_ m = Some (row_forest label_of score_of) ->
  scaled sqrt (_scaler self) (_extract_features hash t) = inr [row] ->
  (detect hash repr sqrt settings fs now t self).2
  = inr (scored hash repr settings now t (label_of row) (score_of row)).
Proof.
  intros Hl Hm Hf HX. rewrite detect_run.
  rewrite load_if_needed_loaded by (try rewrite Hm; done). cbn [fst].
  unfold detect_result, detect_outputs, result_map.
  rewrite HX, Hm. cbn [model_of result_bind].
  unfold predict, score_samples. rewrite Hf. reflexivity.
Qed.

(** The batch path against a forest that answers row by row. *)
Lemma row_forest_batch (self : AnomalyDetector) (m : IsolationForest)
    (label_of : list float -> Z) (score_of : list float -> float)
    (clock : nat -> Z) (ts : list TransactionCreate) (X : matrix) :
  _model_loaded self = true -> _model self = Some m ->
  estimators_ m = Some (row_forest label_of score_of) ->
  ts <> [] ->
  scaled sqrt (_scaler self) (concat (map (_extract_features hash) ts)) = inr X ->
  exists rs,
    (detect_batch hash repr sqrt settings fs clock ts self).2 = inr rs /\
    length rs = length ts /\
    forall (i : nat) (t : TransactionCreate) (row : list float),
      ts !! i = Some t -> X !! i = Some row ->
      rs !! i
      = Some (scored hash repr settings (clock i) t (label_of row) (score_of row)).
Proof.
  intros Hl Hm Hf Hne HX. rewrite detect_batch_run.
  rewrite load_if_needed_loaded by (try rewrite Hm; done). cbn [fst].
  unfold detect_batch_result, detect_batch_outputs.
  assert (Hv : vstack (map (_extract_features hash) ts)
               = inr (concat (map (_extract_features hash) ts))).
  { destruct ts; [done | reflexivity]. }
  rewrite Hv. cbn [result_bind]. rewrite HX, Hm. cbn [model_of result_bind].
  unfold predict, score_samples. rewrite Hf.
  cbn [row_forest forest_predict forest_score_samples]. unfold Ok.
  cbn [result_bind fst snd].
  destruct (stacked_features ts) as [Hlen _].
  apply scaled_shape in HX as [HXl _].
  destruct (batch_loop_ok clock (map label_of X) (map score_of X) ts 0 [])
    as [rs Hrs]; [rewrite length_map; cbn; lia | rewrite length_map; cbn; lia |].
  exists rs. split; [exact Hrs |].
  apply batch_loop_inv in Hrs as (new & -> & Hnew & Hrows).
  split; [exact Hnew |].
  intros i t row Ht Hrow.
  destruct (Hrows i t Ht) as (label & raw & Hp & Hs & Hi).
  cbn [Nat.add app] in *.
  unfold matrix in Hrow.
  rewrite lookup_map, Hrow in Hp. rewrite lookup_map, Hrow in Hs.
  cbn in Hp, Hs.
  injection Hp as <-. injection Hs as <-. exact Hi.
Qed.

End DetectorFacts.

Lemma scored_unit_score hash repr settings now t label raw :
  unit_score raw (fraud_score (scored hash repr settings now t label raw)).
Proof.
  unfold unit_score. cbn [scored fraud_score].
  destruct (normalize_bounds raw) as [H0 H1].
  destruct (py_round_unit (normalize raw) H0 H1) as [Hr0 Hr1].
  repeat split; try assumption.
  - intros H. rewrite (normalize_low raw H). apply py_round_1.
  - intros H. rewrite (normalize_high raw H). apply py_round_0.
Qed.

Lemma scored_or_verdict hash repr settings now t label raw :
  or_verdict (FRAUD_THRESHOLD settings) label raw
    (is_fraud (scored hash repr settings now t label raw)).
Proof.
  unfold or_verdict, decide_verdict. cbn [scored is_fraud]. unfold decide_verdict.
  split.
  - rewrite orb_true_iff, !bool_decide_eq_true. reflexivity.
  - intros Hl Hp. apply orb_false_iff.
    rewrite !bool_decide_eq_false. split; [exact Hl |].
    by apply Qclt_not_le.
Qed.


(** Two transactions without text fields, of amounts 10 and 30,
    scaled together: the amounts are centred on 20 and divided by the
    square root of 100, the constant columns become 0. *)
Lemma fit_transform_pair (hash : string -> Z) (sqrt : float -> float)
    (sc : StandardScaler) :
  result_map snd
    (fit_transform sqrt sc
       (concat (map (_extract_features hash) [Demo.tx 10; Demo.tx 30])))
  = inr [[((Demo.q 10 1 - Demo.q 20 1) / sqrt (Demo.q 100 1))%Qc; 0; 0; 0]%Qc;
         [((Demo.q 30 1 - Demo.q 20 1) / sqrt (Demo.q 100 1))%Qc; 0; 0; 0]%Qc].
Proof.
  assert (Hmean : col_mean [Demo.q 10 1; Demo.q 30 1] = Demo.q 20 1).
  { apply Qc_eq_this. reflexivity. }
  assert (Hscale : col_scale sqrt [Demo.q 10 1; Demo.q 30 1]
                   = sqrt (Demo.q 100 1)).
  { unfold col_scale.
    assert (Hvar : col_var [Demo.q 10 1; Demo.q 30 1] = Demo.q 100 1).
    { apply Qc_eq_this. reflexivity. }
    rewrite Hvar. rewrite bool_decide_eq_false_2; [reflexivity |].
    intros E. apply (f_equal this) in E. discriminate. }
  assert (Hmean0 : col_mean [of_int 0; of_int 0] = 0%Qc).
  { apply Qc_eq_this. reflexivity. }
  assert (Hscale0 : col_scale sqrt [of_int 0; of_int 0] = 1%Qc).
  { unfold col_scale.
    assert (Hvar : col_var [of_int 0; of_int 0] = 0%Qc).
    { apply Qc_eq_this. reflexivity. }
    rewrite Hvar. by rewrite bool_decide_eq_true_2. }
  assert (Hzero : ((of_int 0 - 0) / 1)%Qc = 0%Qc).
  { apply Qc_eq_this. reflexivity. }
  unfold fit_transform, fit, transform, result_map, result_bind, Ok.
  cbn [concat map app _extract_features Demo.tx merchant category
       customer_id amount truthy n_features length seq column nth
       mean_ scale_ transform_row zip_with zip fst snd].
  rewrite Hmean, Hscale, Hmean0, Hscale0, Hzero. reflexivity.
Qed.

Section Claims.
Variable hash : string -> Z.
Variable repr : TransactionCreate -> string.
Variable sqrt : float -> float.
Variable settings : Settings.
Variable fs : gmap string disk_file.

(** C6. The feature vector of every transaction has length 4 and the
    order [amount, merchant-bucket, category-bucket, customer-bucket];
    the buckets lie in [0,1000), [0,100) and [0,1000); an absent field
    has bucket 0; a present field has the bucket [hash mod range]
    (for the empty text the extractor puts 0, which is the same bucket
    as soon as the hash of the empty text is 0, as the interpreter's
    is). *)
Theorem extract_features_vector (t : TransactionCreate) :
  exists m c u : Z,
    _extract_features hash t = [[amount t; of_int m; of_int c; of_int u]] /\
    length [amount t; of_int m; of_int c; of_int u] = 4%nat /\
    (0 <= m < 1000 /\ 0 <= c < 100 /\ 0 <= u < 1000) /\
    (merchant t = None -> m = 0) /\
    (category t = None -> c = 0) /\
    (customer_id t = None -> u = 0) /\
    (forall s, merchant t = Some s -> s <> "" \/ hash "" = 0 ->
               m = hash s mod 1000) /\
    (forall s, category t = Some s -> s <> "" \/ hash "" = 0 ->
               c = hash s mod 100) /\
    (forall s, customer_id t = Some s -> s <> "" \/ hash "" = 0 ->
               u = hash s mod 1000).
Proof.
  assert (Hb : forall (f : option string) (k : Z), 0 < k ->
    let b := if truthy f then hash (str f) mod k else 0 in
    0 <= b < k /\ (f = None -> b = 0) /\
    (forall s, f = Some s -> s <> "" \/ hash "" = 0 -> b = hash s mod k)).
  { intros f k Hk b. subst b. destruct f as [s |]; cbn [truthy str].
    - case_bool_decide as Hs; cbn [negb].
      + subst s. split; [lia |]. split; [discriminate |].
        intros s [= <-] [Hne | H0]; [done |]. by rewrite H0.
      + split; [apply Z.mod_pos_bound; exact Hk |]. split; [discriminate |].
        by intros s' [= <-] _.
    - split; [lia |]. split; [done |]. discriminate. }
  destruct (Hb (merchant t) 1000 eq_refl) as (Hm & Hm0 & Hms).
  destruct (Hb (category t) 100 eq_refl) as (Hc & Hc0 & Hcs).
  destruct (Hb (customer_id t) 1000 eq_refl) as (Hu & Hu0 & Hus).
  eexists _, _, _. split; [reflexivity |]. split; [reflexivity |].
  repeat split; solve [apply Hm | apply Hc | apply Hu | assumption].
Qed.

(** C1. Whatever raw score the model returns for a transaction, the
    fraud score of the result is [1 - (raw + 0.5) / 1.0] clamped to
    [0,1] (and rounded to four places): it lies in [0,1], and raw
    scores at or beyond -0.5 / +0.5 give exactly 1 / 0.  Single and
    batch path alike. *)
Theorem fraud_score_unit_interval :
  (forall (now : Z) (t : TransactionCreate) (self : AnomalyDetector)
          (r : TransactionResponse),
      (detect hash repr sqrt settings fs now t self).2 = inr r ->
      exists X label raw,
        scaled sqrt (_scaler (load_if_needed settings fs self).1)
          (_extract_features hash t) = inr X /\
        model_gave (load_if_needed settings fs self).1 X 0 label raw /\
        unit_score raw (fraud_score r)) /\
  (forall (now : nat -> Z) (ts : list TransactionCreate)
          (self : AnomalyDetector) (rs : list TransactionResponse),
      (detect_batch hash repr sqrt settings fs now ts self).2 = inr rs ->
      exists X,
        scaled sqrt (_scaler (load_if_needed settings fs self).1)
          (concat (map (_extract_features hash) ts)) = inr X /\
        forall (i : nat) (r : TransactionResponse),
          rs !! i = Some r ->
          exists label raw,
            model_gave (load_if_needed settings fs self).1 X i label raw /\
            unit_score raw (fraud_score r)).
Proof.
  split.
  - intros now t self r H.
    apply detect_scored in H as (X & label & raw & HX & Hg & ->).
    exists X, label, raw.
    split; [exact HX |]. split; [exact Hg | apply scored_unit_score].
  - intros now ts self rs H.
    apply detect_batch_scored in H as (_ & _ & X & HX & _ & Hrows).
    exists X. split; [exact HX |]. intros i r Hi.
    destruct (Hrows i r Hi) as (t & label & raw & _ & Hg & ->).
    exists label, raw. split; [exact Hg | apply scored_unit_score].
Qed.

(** C3. The verdict of every scored transaction is fraud exactly when
    the model's label is anomalous or the normalised score reaches the
    configured threshold; with a normal label and a score strictly
    below the threshold it is not fraud.  Single and batch path
    alike: a returned batch holds one result per transaction, and the
    verdict of transaction [i] follows the label and the raw score the
    model gave on row [i]. *)
Theorem verdict_label_or_threshold :
  (forall (now : Z) (t : TransactionCreate) (self : AnomalyDetector)
          (r : TransactionResponse),
      (detect hash repr sqrt settings fs now t self).2 = inr r ->
      exists X label raw,
        scaled sqrt (_scaler (load_if_needed settings fs self).1)
          (_extract_features hash t) = inr X /\
        model_gave (load_if_needed settings fs self).1 X 0 label raw /\
        or_verdict (FRAUD_THRESHOLD settings) label raw (is_fraud r)) /\
  (forall (now : nat -> Z) (ts : list TransactionCreate)
          (self : AnomalyDetector) (rs : list TransactionResponse),
      (detect_batch hash repr sqrt settings fs now ts self).2 = inr rs ->
      length rs = length ts /\
      exists X,
        scaled sqrt (_scaler (load_if_needed settings fs self).1)
          (concat (map (_extract_features hash) ts)) = inr X /\
        forall (i : nat) (t : TransactionCreate),
          ts !! i = Some t ->
          exists r label raw,
            rs !! i = Some r /\
            model_gave (load_if_needed settings fs self).1 X i label raw /\
            or_verdict (FRAUD_THRESHOLD settings) label raw (is_fraud r)).
Proof.
  split.
  - intros now t self r H.
    apply detect_scored in H as (X & label & raw & HX & Hg & ->).
    exists X, label, raw.
    split; [exact HX |]. split; [exact Hg | apply scored_or_verdict].
  - intros now ts self rs H.
    apply detect_batch_scored in H as (_ & Hlen & X & HX & Hrows & _).
    split; [exact Hlen |].
    exists X. split; [exact HX |]. intros i t Ht.
    destruct (Hrows i t Ht) as (label & raw & Hg & Hi).
    eexists _, label, raw. split; [exact Hi |].
    split; [exact Hg | apply scored_or_verdict].
Qed.

(** C5, as the code has it.  On an empty transaction list
    [detect_batch] fails fast: it raises the error of the stacking
    step, the array library's [ValueError], and returns no result
    list, neither empty nor partial; the scaler is not refitted and the
    model is not consulted.  The error is the one [vstack] raises on
    any empty sequence, and its text does not identify the batch. *)
Theorem detect_batch_empty_fails (now : nat -> Z) (self : AnomalyDetector) :
  exists e : exn,
    detect_batch hash repr sqrt settings fs now [] self
    = ((load_if_needed settings fs self).1, inl e) /\
    e = ValueError "need at least one array to concatenate" /\
    vstack [] = inl e /\
    identifies_batch e = false.
Proof.
  exists (ValueError "need at least one array to concatenate").
  split; [| by repeat split].
  unfold detect_batch. unfold bind at 1.
  pose proof (load_if_needed_ok settings fs self) as Hl.
  destruct (load_if_needed settings fs self) as [self1 u].
  cbn [fst snd] in *. subst u. reflexivity.
Qed.

(** C8. The single path and the one-element batch path agree: both
    fail, or both return, and then the batch holds exactly one result,
    with the fraud score and the verdict of the single result. *)
Theorem detect_agrees_with_singleton_batch (now : Z) (clock : nat -> Z)
    (t : TransactionCreate) (self : AnomalyDetector) :
  match (detect hash repr sqrt settings fs now t self).2,
        (detect_batch hash repr sqrt settings fs clock [t] self).2 with
  | inr r, inr rs =>
    exists r', rs = [r'] /\
      fraud_score r' = fraud_score r /\ is_fraud r' = is_fraud r
  | inl _, inl _ => True
  | _, _ => False
  end.
Proof.
  rewrite detect_run, detect_batch_run.
  unfold detect_batch_result, detect_batch_outputs, detect_result,
    detect_outputs, result_map.
  cbn [map vstack concat]. rewrite app_nil_r.
  unfold Ok. cbn [result_bind batch_loop].
  destruct (scaled _ _ _) as [e | X]; cbn [result_bind]; [exact I |].
  destruct (model_of _) as [e | m]; cbn [result_bind]; [exact I |].
  destruct (predict m X) as [e | ps]; cbn [result_bind]; [exact I |].
  destruct (score_samples m X) as [e | ss];
    cbn [result_bind fst snd batch_loop];
    [by destruct (index ps 0) |].
  destruct (index ss 0) as [e | raw]; cbn [result_bind];
    [by destruct (index ps 0) |].
  destruct (index ps 0) as [e | label]; cbn [result_bind]; [exact I |].
  rewrite source_normalize. unfold Ok. cbn [app fst snd].
  eexists. split; [reflexivity |]. split; reflexivity.
Qed.

(** C4, on the code.  [load_model] never raises and always sets the
    loaded flag.  With no artifact at the path, or an artifact that
    fails to deserialize, the registry holds a fresh unfitted model
    (contamination 0.1, random state 42, 100 estimators) and a fresh
    scaler, and [is_model_loaded] answers true.  An artifact that
    deserializes is taken as it is: a bare model, or a dict with a
    model, is held next to a scaler and [is_model_loaded] answers true;
    a dict without a ['model'] entry leaves the model [None], and
    [is_model_loaded] answers false after the load has completed.  That
    is the only way for it to answer false. *)
Theorem load_model_degrades (model_path : option string)
    (self : AnomalyDetector) :
  exists self',
    load_model settings fs model_path self = (self', inr tt) /\
    _model_loaded self' = true /\
    (is_model_loaded self').2 = inr (bool_decide (_model self' <> None)) /\
    ((fs !! resolved_path settings model_path = None \/
      exists file e,
        fs !! resolved_path settings model_path = Some file /\
        joblib_load file = inl e) ->
     _model self'
     = Some {| contamination := Q2Qc (1 # 10); random_state := 42;
               n_estimators := 100; estimators_ := None |} /\
     _scaler self' = Some fresh_scaler /\
     (is_model_loaded self').2 = inr true) /\
    (forall m : IsolationForest,
        fs !! resolved_path settings model_path = Some (pickled (legacy m)) ->
        _model self' = Some m /\ _scaler self' = Some fresh_scaler /\
        (is_model_loaded self').2 = inr true) /\
    (forall (m : IsolationForest) (s : option StandardScaler),
        fs !! resolved_path settings model_path
        = Some (pickled (bundle (Some m) s)) ->
        _model self' = Some m /\ _scaler self' = s /\
        (is_model_loaded self').2 = inr true) /\
    (forall s : option StandardScaler,
        fs !! resolved_path settings model_path
        = Some (pickled (bundle None s)) ->
        _model self' = None /\ _scaler self' = s /\
        (is_model_loaded self').2 = inr false) /\
    ((is_model_loaded self').2 = inr false <->
     exists s : option StandardScaler,
       fs !! resolved_path settings model_path
       = Some (pickled (bundle None s))).
Proof.
  exists (registry_after_load settings fs model_path).
  split; [apply load_model_run |].
  assert (Hflag : _model_loaded (registry_after_load settings fs model_path) = true).
  { unfold registry_after_load.
    by destruct (fs !! _) as [[[m s | m] | e] |]. }
  split; [exact Hflag |].
  assert (Hready : (is_model_loaded (registry_after_load settings fs model_path)).2
                   = inr (bool_decide
                            (_model (registry_after_load settings fs model_path)
                             <> None))).
  { unfold is_model_loaded. run_M. rewrite Hflag. reflexivity. }
  split; [exact Hready |].
  rewrite Hready. unfold registry_after_load.
  destruct (fs !! resolved_path settings model_path)
    as [[[[m |] s | m] | e] |] eqn:Hfs; cbn [_model _scaler].
  all: split; [intros [Hn | (file & e' & Hfile & He)] |].
  all: try (split; [intros m' Hm' |]).
  all: try (split; [intros m' s' Hm' |]).
  all: try (split; [intros s' Hs' |]).
  all: try (split; [intros Hf | intros [s' Hs']]).
  all: simplify_eq/=; try done.
  all: try by eexists.
Qed.

(** C10. On the single path, with a scaler in the registry, every
    transaction is scaled to the zero vector; so any two transactions
    get the same outcome from [detect]: the same exception, or results
    with the same fraud score and the same verdict. *)
Theorem detect_blind_to_content (self : AnomalyDetector)
    (sc : StandardScaler) :
  _scaler (load_if_needed settings fs self).1 = Some sc ->
  forall (now1 now2 : Z) (t1 t2 : TransactionCreate),
    scaled sqrt (Some sc) (_extract_features hash t1)
    = inr [[0; 0; 0; 0]]%Qc /\
    result_map (fun r => (fraud_score r, is_fraud r))
      (detect hash repr sqrt settings fs now1 t1 self).2
    = result_map (fun r => (fraud_score r, is_fraud r))
        (detect hash repr sqrt settings fs now2 t2 self).2.
Proof.
  intros Hsc now1 now2 t1 t2.
  assert (Hz : forall t, scaled sqrt (Some sc) (_extract_features hash t)
                         = inr [[0; 0; 0; 0]]%Qc).
  { intros t. unfold scaled, _extract_features.
    rewrite fit_transform_single. reflexivity. }
  split; [apply Hz |].
  rewrite !detect_run. unfold detect_result, detect_outputs.
  rewrite Hsc, !Hz. unfold result_map. cbn [result_bind].
  destruct (model_of _) as [e | m]; cbn [result_bind]; [reflexivity |].
  destruct (predict m _) as [e | ps]; cbn [result_bind]; [reflexivity |].
  destruct (index ps 0) as [e | label]; cbn [result_bind]; [reflexivity |].
  destruct (score_samples m _) as [e | ss]; cbn [result_bind]; [reflexivity |].
  destruct (index ss 0) as [e | raw]; cbn [result_bind]; reflexivity.
Qed.

(** C2, as the code has it.  Whenever [detect_batch] returns, the
    result list is as long as the input and entry [i] is the scored
    result of transaction [i]: it carries the amount, merchant,
    category and customer id of transaction [i], and its verdict and
    score are those of the label and the raw score the model gave on
    row [i] of the scaled batch.  And it does return for every
    non-empty list when the registry is loaded with a fitted forest
    that answers one label and one score per row.  (The empty list is
    refused, see C5.) *)
Theorem detect_batch_preserves_order :
  (forall (now : nat -> Z) (ts : list TransactionCreate)
          (self : AnomalyDetector) (rs : list TransactionResponse),
      (detect_batch hash repr sqrt settings fs now ts self).2 = inr rs ->
      ts <> [] /\ length rs = length ts /\
      exists X,
        scaled sqrt (_scaler (load_if_needed settings fs self).1)
          (concat (map (_extract_features hash) ts)) = inr X /\
        forall (i : nat) (t : TransactionCreate),
          ts !! i = Some t ->
          exists r label raw,
            rs !! i = Some r /\ echoes r t /\
            model_gave (load_if_needed settings fs self).1 X i label raw /\
            r = scored hash repr settings (now i) t label raw) /\
  (forall (now : nat -> Z) (ts : list TransactionCreate)
          (self : AnomalyDetector) (m : IsolationForest) (f : FittedForest),
      ts <> [] ->
      _model_loaded self = true -> _model self = Some m ->
      estimators_ m = Some f -> row_wise f ->
      exists rs,
        (detect_batch hash repr sqrt settings fs now ts self).2 = inr rs).
Proof.
  split.
  - intros now ts self rs H.
    apply detect_batch_scored in H as (Hne & Hlen & X & HX & Hrows & _).
    split; [exact Hne |]. split; [exact Hlen |].
    exists X. split; [exact HX |].
    intros i t Ht. destruct (Hrows i t Ht) as (label & raw & Hg & Hi).
    eexists _, label, raw. split; [exact Hi |].
    split; [by repeat split |]. split; [exact Hg | reflexivity].
  - intros now ts self m f Hne Hl Hm Hf Hrw.
    rewrite detect_batch_run.
    rewrite load_if_needed_loaded by (try rewrite Hm; done).
    cbn [fst]. unfold detect_batch_result, detect_batch_outputs.
    destruct (stacked_features hash ts) as [Hlen Hw].
    assert (Hv : vstack (map (_extract_features hash) ts)
                 = inr (concat (map (_extract_features hash) ts))).
    { destruct ts; [done | reflexivity]. }
    rewrite Hv. cbn [result_bind].
    assert (HX0 : concat (map (_extract_features hash) ts) <> []).
    { intros E. rewrite E in Hlen. destruct ts; [done | discriminate]. }
    destruct (scaled_ok sqrt (_scaler self) _ HX0) as [X HX].
    rewrite HX. cbn [result_bind].
    apply scaled_shape in HX as [HXl HXw]. specialize (HXw Hw).
    rewrite Hm. cbn [model_of result_bind].
    assert (HXne : X <> []).
    { intros E. rewrite E in HXl. cbn in HXl. rewrite Hlen in HXl.
      destruct ts; [done | discriminate]. }
    destruct (Hrw X HXne HXw) as (ps & ss & Hps & Hss & Hpl & Hsl).
    unfold predict, score_samples. rewrite Hf, Hps, Hss.
    cbn [result_bind fst snd].
    apply batch_loop_ok; cbn; lia.
Qed.


(** C7.  The scaler is refitted on the very matrix it is given, and a
    refit forgets what was fitted before, so what the model is asked
    about depends on the batch and on nothing else.  The transaction
    [t] of amount 10 is scaled to the zero row when it is alone, and to a
    row [x, 0, 0, 0] with [x <> 0] next to a transaction of amount 30,
    whatever the scaler was fitted on before.  For every forest that
    answers row by row, [detect] reports the forest's answer on the zero
    row and [detect_batch] reports, at [t], its answer on [x, 0, 0, 0];
    with a forest that tells the two rows apart the fraud scores are 0
    and 1.  In a registry without a scaler there is no refit, and the
    same forests give a transaction the same score and verdict alone and
    in any batch. *)
Theorem scoring_depends_on_batch :
  (forall v : float, (0 < v)%Qc -> (0 < sqrt v)%Qc) ->
  (forall (sc sc' : StandardScaler) (X : matrix),
      fit_transform sqrt sc X = fit_transform sqrt sc' X) /\
  exists (t : TransactionCreate) (batch : list TransactionCreate) (x : float),
    batch !! 0%nat = Some t /\ x <> 0%Qc /\
    (forall sc : StandardScaler,
        scaled sqrt (Some sc) (_extract_features hash t)
        = inr [[0; 0; 0; 0]]%Qc /\
        exists rest,
          scaled sqrt (Some sc) (concat (map (_extract_features hash) batch))
          = inr ([x; 0; 0; 0]%Qc :: rest)) /\
    (forall (self : AnomalyDetector) (m : IsolationForest)
            (sc : StandardScaler)
            (label_of : list float -> Z) (score_of : list float -> float)
            (now : Z) (clock : nat -> Z),
        _model_loaded self = true -> _model self = Some m ->
        estimators_ m = Some (row_forest label_of score_of) ->
        _scaler self = Some sc ->
        exists rs,
          (detect hash repr sqrt settings fs now t self).2
          = inr (scored hash repr settings now t
                   (label_of [0; 0; 0; 0]%Qc) (score_of [0; 0; 0; 0]%Qc)) /\
          (detect_batch hash repr sqrt settings fs clock batch self).2
          = inr rs /\
          length rs = length batch /\
          rs !! 0%nat
          = Some (scored hash repr settings (clock 0%nat) t
                    (label_of [x; 0; 0; 0]%Qc) (score_of [x; 0; 0; 0]%Qc))) /\
    (exists (label_of : list float -> Z) (score_of : list float -> float),
        forall (self : AnomalyDetector) (m : IsolationForest)
               (sc : StandardScaler) (now : Z) (clock : nat -> Z),
          _model_loaded self = true -> _model self = Some m ->
          estimators_ m = Some (row_forest label_of score_of) ->
          _scaler self = Some sc ->
          exists r rs r',
            (detect hash repr sqrt settings fs now t self).2 = inr r /\
            (detect_batch hash repr sqrt settings fs clock batch self).2
            = inr rs /\
            rs !! 0%nat = Some r' /\
            fraud_score r = 0%Qc /\ fraud_score r' = 1%Qc /\
            fraud_score r <> fraud_score r') /\
    (forall (self : AnomalyDetector) (m : IsolationForest)
            (label_of : list float -> Z) (score_of : list float -> float)
            (now : Z) (clock : nat -> Z)
            (ts : list TransactionCreate) (i : nat) (t' : TransactionCreate),
        _model_loaded self = true -> _model self = Some m ->
        estimators_ m = Some (row_forest label_of score_of) ->
        _scaler self = None ->
        ts !! i = Some t' ->
        exists r rs r',
          (detect hash repr sqrt settings fs now t' self).2 = inr r /\
          (detect_batch hash repr sqrt settings fs clock ts self).2 = inr rs /\
          rs !! i = Some r' /\
          fraud_score r' = fraud_score r /\ is_fraud r' = is_fraud r).
Proof.
  intros Hsqrt. split; [reflexivity |].
  set (s := sqrt (Demo.q 100 1)).
  assert (Hs : (0 < s)%Qc) by (apply Hsqrt; reflexivity).
  set (x := ((Demo.q 10 1 - Demo.q 20 1) / s)%Qc).
  assert (Hx : x <> 0%Qc).
  { intros E.
    assert (Hm : (s * x = Demo.q 10 1 - Demo.q 20 1)%Qc).
    { unfold x. apply Qcmult_div_r. intros E'. rewrite E' in Hs.
      by apply Qclt_not_eq in Hs. }
    rewrite E, Qcmult_0_r in Hm. apply (f_equal this) in Hm. discriminate. }
  assert (Hone : forall sc : StandardScaler,
    scaled sqrt (Some sc) (_extract_features hash (Demo.tx 10))
    = inr [[0; 0; 0; 0]]%Qc).
  { intros sc. unfold scaled, _extract_features.
    rewrite fit_transform_single. reflexivity. }
  assert (Hpair : forall sc : StandardScaler,
    scaled sqrt (Some sc)
      (concat (map (_extract_features hash) [Demo.tx 10; Demo.tx 30]))
    = inr [[x; 0; 0; 0]%Qc;
           [((Demo.q 30 1 - Demo.q 20 1) / s)%Qc; 0; 0; 0]%Qc]).
  { intros sc. unfold scaled. apply fit_transform_pair. }
  assert (Hboth : forall (self : AnomalyDetector) (m : IsolationForest)
            (sc : StandardScaler)
            (label_of : list float -> Z) (score_of : list float -> float)
            (now : Z) (clock : nat -> Z),
        _model_loaded self = true -> _model self = Some m ->
        estimators_ m = Some (row_forest label_of score_of) ->
        _scaler self = Some sc ->
        exists rs,
          (detect hash repr sqrt settings fs now (Demo.tx 10) self).2
          = inr (scored hash repr settings now (Demo.tx 10)
                   (label_of [0; 0; 0; 0]%Qc) (score_of [0; 0; 0; 0]%Qc)) /\
          (detect_batch hash repr sqrt settings fs clock
             [Demo.tx 10; Demo.tx 30] self).2
          = inr rs /\
          length rs = length [Demo.tx 10; Demo.tx 30] /\
          rs !! 0%nat
          = Some (scored hash repr settings (clock 0%nat) (Demo.tx 10)
                    (label_of [x; 0; 0; 0]%Qc) (score_of [x; 0; 0; 0]%Qc))).
  { intros self m sc label_of score_of now clock Hl Hm Hf Hsc.
    destruct (row_forest_batch hash repr sqrt settings fs self m label_of
                score_of clock [Demo.tx 10; Demo.tx 30]
                [[x; 0; 0; 0]%Qc;
                 [((Demo.q 30 1 - Demo.q 20 1) / s)%Qc; 0; 0; 0]%Qc]
                Hl Hm Hf)
      as (rs & Hrs & Hlen & Hrows);
      [discriminate | rewrite Hsc; apply Hpair |].
    exists rs. split.
    { apply (row_forest_single hash repr sqrt settings fs self m); try done.
      rewrite Hsc. apply Hone. }
    split; [exact Hrs |]. split; [exact Hlen |].
    by apply Hrows. }
  exists (Demo.tx 10), [Demo.tx 10; Demo.tx 30], x.
  split; [reflexivity |]. split; [exact Hx |].
  split.
  { intros sc. split; [apply Hone |]. eexists. apply Hpair. }
  split; [exact Hboth |].
  split.
  { exists (fun _ => 1),
      (fun row => if bool_decide (nth 0 row 0 = 0)%Qc then half else (- half)%Qc).
    intros self m sc now clock Hl Hm Hf Hsc.
    destruct (Hboth self m sc _ _ now clock Hl Hm Hf Hsc)
      as (rs & Hr & Hrs & _ & Hr').
    eexists _, rs, _. split; [exact Hr |]. split; [exact Hrs |].
    split; [exact Hr' |].
    cbn [scored fraud_score nth].
    rewrite (bool_decide_eq_true_2 (0 = 0)%Qc) by reflexivity.
    rewrite (bool_decide_eq_false_2 (x = 0)%Qc) by exact Hx.
    rewrite normalize_high by apply Qcle_refl.
    rewrite normalize_low by apply Qcle_refl.
    rewrite py_round_0, py_round_1.
    split; [reflexivity |]. split; [reflexivity |].
    intros E. apply (f_equal this) in E. discriminate. }
  intros self m label_of score_of now clock ts i t' Hl Hm Hf Hsc Ht.
  destruct (stacked_lookup hash ts i t' Ht) as (row & Hrow & HXi).
  destruct (row_forest_batch hash repr sqrt settings fs self m label_of
              score_of clock ts
              (concat (map (_extract_features hash) ts)) Hl Hm Hf)
    as (rs & Hrs & _ & Hrows);
    [by intros -> | by rewrite Hsc |].
  eexists _, rs, _.
  split.
  { apply (row_forest_single hash repr sqrt settings fs self m label_of
             score_of now t' row); try done.
    rewrite Hsc, Hrow. reflexivity. }
  split; [exact Hrs |].
  split; [exact (Hrows i t' row Ht HXi) |].
  split; reflexivity.
Qed.
End Claims.

Lemma extract_features_vector_witness :
  _extract_features Demo.hash (Demo.acme 10)
  = [[Demo.q 10 1; of_int 676; of_int 76; of_int 0]].
Proof.
  destruct (extract_features_vector Demo.hash (Demo.acme 10))
    as (m & c & u & -> & _ & _ & _ & _ & _ & Hm & Hc & Hu).
  rewrite (Hm "acme" eq_refl (or_intror eq_refl)).
  rewrite (Hc "food" eq_refl (or_intror eq_refl)).
  rewrite (Hu "" eq_refl (or_intror eq_refl)).
  reflexivity.
Defined.

(** ** Worked instances *)


Lemma Demo_forest_row_wise : row_wise Demo.forest.
Proof.
  intros X _ _. eexists _, _.
  split; [reflexivity |]. split; [reflexivity |].
  split; apply length_map.
Qed.

Lemma Demo_sqrt_pos (v : float) : (0 < v)%Qc -> (0 < Demo.sqrt v)%Qc.
Proof.
  destruct v as [[n d] Hc]. intros H. unfold Qclt in *.
  change (this 0%Qc) with 0%Q in *.
  unfold Demo.sqrt, Q2Qc. cbn [this Qnum Qden] in *.
  rewrite Qred_correct. unfold Qlt in *. cbn [Qnum Qden] in *.
  rewrite Z.mul_1_r in *. cbn [Z.mul] in *. by apply Z.sqrt_pos.
Qed.

Lemma fraud_score_unit_interval_witness :
  match (detect Demo.hash Demo.repr Demo.sqrt default_settings Demo.disk 0
           (Demo.acme 10) (Demo.registry Demo.forest)).2 with
  | inr r => (0 <= fraud_score r)%Qc /\ (fraud_score r <= 1)%Qc
  | inl _ => False
  end /\
  match (detect_batch Demo.hash Demo.repr Demo.sqrt default_settings Demo.disk
           Demo.clock [Demo.tx 10; Demo.tx 5000; Demo.tx 12]
           (Demo.registry Demo.forest)).2 with
  | inr rs =>
    length rs = 3%nat /\
    Forall (fun r => (0 <= fraud_score r)%Qc /\ (fraud_score r <= 1)%Qc) rs
  | inl _ => False
  end.
Proof.
  pose proof (fraud_score_unit_interval Demo.hash Demo.repr Demo.sqrt
                default_settings Demo.disk) as [Hone Hmany].
  split.
  - destruct (detect _ _ _ _ _ _ _ _).2 as [e | r] eqn:E.
    + vm_compute in E. discriminate.
    + destruct (Hone _ _ _ _ E) as (X & label & raw & _ & _ & _ & H0 & H1 & _).
      split; assumption.
  - destruct (detect_batch _ _ _ _ _ _ _ _).2 as [e | rs] eqn:E.
    + vm_compute in E. discriminate.
    + destruct (Hmany _ _ _ _ E) as (X & _ & Hrows).
      split.
      * vm_compute in E. injection E as <-. reflexivity.
      * apply Forall_lookup. intros i r Hi.
        destruct (Hrows i r Hi) as (label & raw & _ & _ & H0 & H1 & _).
        split; assumption.
Defined.

Lemma verdict_label_or_threshold_witness :
  (exists r X label raw,
      (detect Demo.hash Demo.repr Demo.sqrt default_settings Demo.disk 0
         (Demo.acme 10) (Demo.registry Demo.forest)).2 = inr r /\
      scaled Demo.sqrt (_scaler (Demo.registry Demo.forest))
        (_extract_features Demo.hash (Demo.acme 10)) = inr X /\
      model_gave (Demo.registry Demo.forest) X 0 label raw /\
      or_verdict (FRAUD_THRESHOLD default_settings) label raw (is_fraud r)) /\
  (exists rs X,
      (detect_batch Demo.hash Demo.repr Demo.sqrt default_settings Demo.disk
         Demo.clock [Demo.tx 10; Demo.tx 5000; Demo.tx 12]
         (Demo.registry Demo.forest)).2 = inr rs /\
      length rs = 3%nat /\
      scaled Demo.sqrt (_scaler (Demo.registry Demo.forest))
        (concat (map (_extract_features Demo.hash)
                   [Demo.tx 10; Demo.tx 5000; Demo.tx 12])) = inr X /\
      forall (i : nat) (t : TransactionCreate),
        [Demo.tx 10; Demo.tx 5000; Demo.tx 12] !! i = Some t ->
        exists r label raw,
          rs !! i = Some r /\
          model_gave (Demo.registry Demo.forest) X i label raw /\
          or_verdict (FRAUD_THRESHOLD default_settings) label raw
            (is_fraud r)).
Proof.
  pose proof (verdict_label_or_threshold Demo.hash Demo.repr Demo.sqrt
                default_settings Demo.disk) as [Hone Hmany].
  assert (Hload : (load_if_needed default_settings Demo.disk
                     (Demo.registry Demo.forest)).1
                  = Demo.registry Demo.forest).
  { by rewrite load_if_needed_loaded. }
  split.
  - destruct (detect _ _ _ _ _ _ _ _).2 as [e | r] eqn:E.
    + vm_compute in E. discriminate.
    + destruct (Hone _ _ _ _ E) as (X & label & raw & HX & Hg & Hv).
      rewrite Hload in HX, Hg. by exists r, X, label, raw.
  - destruct (detect_batch _ _ _ _ _ _ _ _).2 as [e | rs] eqn:E.
    + vm_compute in E. discriminate.
    + destruct (Hmany _ _ _ _ E) as (Hlen & X & HX & Hrows).
      rewrite Hload in HX, Hrows. by exists rs, X.
Defined.

(** The empty batch returns no result list at all. *)
Lemma detect_batch_empty_no_result :
  ~ exists rs : list TransactionResponse,
      (detect_batch Demo.hash Demo.repr Demo.sqrt default_settings Demo.disk
         Demo.clock [] (Demo.registry Demo.forest)).2 = inr rs /\
      length rs = 0%nat.
Proof. intros (rs & H & _). vm_compute in H. discriminate. Qed.

(** The error of the empty batch does not identify the batch: it is
    the array library's text, which names neither a batch nor a
    transaction. *)
Lemma detect_batch_empty_error_names_no_batch :
  ~ exists e : exn,
      (detect_batch Demo.hash Demo.repr Demo.sqrt default_settings Demo.disk
         Demo.clock [] (Demo.registry Demo.forest)).2 = inl e /\
      identifies_batch e = true.
Proof.
  intros (e & H & Hid). vm_compute in H. injection H as <-.
  vm_compute in Hid. discriminate.
Qed.

(** An error that would identify it. *)
Lemma identifies_batch_example :
  identifies_batch (ValueError "Cannot score an empty batch") = true.
Proof. reflexivity. Qed.

Lemma detect_batch_preserves_order_witness :
  exists rs X,
    (detect_batch Demo.hash Demo.repr Demo.sqrt default_settings Demo.disk
       Demo.clock [Demo.tx 10; Demo.tx 5000; Demo.tx 12]
       (Demo.registry Demo.forest)).2 = inr rs /\
    length rs = 3%nat /\
    scaled Demo.sqrt (_scaler (Demo.registry Demo.forest))
      (concat (map (_extract_features Demo.hash)
                 [Demo.tx 10; Demo.tx 5000; Demo.tx 12])) = inr X /\
    forall (i : nat) (t : TransactionCreate),
      [Demo.tx 10; Demo.tx 5000; Demo.tx 12] !! i = Some t ->
      exists r label raw,
        rs !! i = Some r /\ echoes r t /\
        model_gave (Demo.registry Demo.forest) X i label raw /\
        r = scored Demo.hash Demo.repr default_settings (Demo.clock i) t
              label raw.
Proof.
  pose proof (detect_batch_preserves_order Demo.hash Demo.repr Demo.sqrt
                default_settings Demo.disk) as [Hinv Hret].
  assert (Hload : (load_if_needed default_settings Demo.disk
                     (Demo.registry Demo.forest)).1
                  = Demo.registry Demo.forest).
  { by rewrite load_if_needed_loaded. }
  destruct (Hret Demo.clock [Demo.tx 10; Demo.tx 5000; Demo.tx 12]
              (Demo.registry Demo.forest) (Demo.fitted Demo.forest)
              Demo.forest) as [rs Hrs];
    [discriminate | reflexivity | reflexivity | reflexivity
     | exact Demo_forest_row_wise |].
  destruct (Hinv _ _ _ _ Hrs) as (_ & Hlen & X & HX & Hrows).
  rewrite Hload in HX, Hrows.
  exists rs, X. by repeat split.
Defined.

Lemma load_model_degrades_witness :
  (exists self',
      load_model default_settings Demo.disk None unloaded = (self', inr tt) /\
      _model_loaded self' = true /\ _model self' = None /\
      (is_model_loaded self').2 = inr false) /\
  (exists self',
      load_model default_settings Demo.disk (Some "models/missing.joblib")
        unloaded = (self', inr tt) /\
      (is_model_loaded self').2 = inr true) /\
  (exists self',
      load_model default_settings Demo.disk (Some "models/corrupt.joblib")
        unloaded = (self', inr tt) /\
      (is_model_loaded self').2 = inr true /\
      _scaler self' = Some fresh_scaler) /\
  (exists self',
      load_model default_settings Demo.disk (Some "models/legacy.joblib")
        unloaded = (self', inr tt) /\
      _model self' = Some (Demo.fitted Demo.forest) /\
      (is_model_loaded self').2 = inr true).
Proof.
  split; [| split; [| split]].
  - destruct (load_model_degrades default_settings Demo.disk None unloaded)
      as (self' & Hrun & Hflag & _ & _ & _ & _ & Hbare & _).
    destruct (Hbare (Some fresh_scaler)) as (Hm & _ & Hready);
      [vm_compute; reflexivity |].
    exists self'. by repeat split.
  - destruct (load_model_degrades default_settings Demo.disk
                (Some "models/missing.joblib") unloaded)
      as (self' & Hrun & _ & _ & Hfb & _).
    destruct Hfb as (_ & _ & Hready); [left; vm_compute; reflexivity |].
    exists self'. by split.
  - destruct (load_model_degrades default_settings Demo.disk
                (Some "models/corrupt.joblib") unloaded)
      as (self' & Hrun & _ & _ & Hfb & _).
    destruct Hfb as (_ & Hs & Hready).
    { right. eexists _, _. split; vm_compute; reflexivity. }
    exists self'. by repeat split.
  - destruct (load_model_degrades default_settings Demo.disk
                (Some "models/legacy.joblib") unloaded)
      as (self' & Hrun & _ & _ & _ & Hlegacy & _).
    destruct (Hlegacy (Demo.fitted Demo.forest)) as (Hm & _ & Hready);
      [vm_compute; reflexivity |].
    exists self'. by repeat split.
Defined.

Lemma scoring_depends_on_batch_witness :
  exists (t : TransactionCreate) (batch : list TransactionCreate)
         (label_of : list float -> Z) (score_of : list float -> float),
    batch !! 0%nat = Some t /\
    exists r rs r',
      (detect Demo.hash Demo.repr Demo.sqrt default_settings Demo.disk 0 t
         (Demo.registry (row_forest label_of score_of))).2 = inr r /\
      (detect_batch Demo.hash Demo.repr Demo.sqrt default_settings Demo.disk
         Demo.clock batch (Demo.registry (row_forest label_of score_of))).2
      = inr rs /\
      rs !! 0%nat = Some r' /\
      fraud_score r = 0%Qc /\ fraud_score r' = 1%Qc.
Proof.
  destruct (scoring_depends_on_batch Demo.hash Demo.repr Demo.sqrt
              default_settings Demo.disk Demo_sqrt_pos)
    as (_ & t & batch & x & Hin & _ & _ & _ & (label_of & score_of & Hdiff) & _).
  exists t, batch, label_of, score_of. split; [exact Hin |].
  destruct (Hdiff (Demo.registry (row_forest label_of score_of))
              (Demo.fitted (row_forest label_of score_of)) fresh_scaler
              0 Demo.clock eq_refl eq_refl eq_refl eq_refl)
    as (r & rs & r' & Hr & Hrs & Hr' & H0 & H1 & _).
  by exists r, rs, r'.
Defined.



Lemma detect_blind_to_content_witness :
  is_ok (detect Demo.hash Demo.repr Demo.sqrt default_settings Demo.disk 0
           (Demo.acme 10) (Demo.registry Demo.forest)).2 = true /\
  result_map (fun r => (fraud_score r, is_fraud r))
    (detect Demo.hash Demo.repr Demo.sqrt default_settings Demo.disk 0
       (Demo.acme 10) (Demo.registry Demo.forest)).2
  = result_map (fun r => (fraud_score r, is_fraud r))
      (detect Demo.hash Demo.repr Demo.sqrt default_settings Demo.disk 7
         (Demo.tx 5000) (Demo.registry Demo.forest)).2.
Proof.
  split; [vm_compute; reflexivity |].
  apply (detect_blind_to_content Demo.hash Demo.repr Demo.sqrt
           default_settings Demo.disk (Demo.registry Demo.forest)
           fresh_scaler eq_refl 0 7 (Demo.acme 10) (Demo.tx 5000)).
Defined.

(** * Further properties of the detector *)

(** ** The registry across calls *)

Section RegistryFacts.
Variable hash : string -> Z.
Variable repr : TransactionCreate -> string.
Variable sqrt : float -> float.
Variable settings : Settings.
Variable fs : gmap string disk_file.

Lemma load_if_needed_cases (self : AnomalyDetector) :
  (load_if_needed settings fs self).1 = self /\
    _model_loaded self = true /\ _model self <> None
  \/
  (load_if_needed settings fs self).1 = registry_after_load settings fs None /\
    (_model_loaded self = false \/ _model self = None).
Proof.
  unfold load_if_needed. run_M.
  destruct (_model_loaded self) eqn:Hl; cbn [negb orb].
  - case_bool_decide as Hm.
    + right. rewrite load_model_run. by split; [| right].
    + left. by repeat split.
  - right. rewrite load_model_run. by split; [| left].
Qed.

Lemma registry_after_load_flag (model_path : option string) :
  _model_loaded (registry_after_load settings fs model_path) = true.
Proof.
  unfold registry_after_load. by destruct (fs !! _) as [[[m s | m] | e] |].
Qed.

(** Loading when needed is idempotent. *)
Lemma load_if_needed_twice (self : AnomalyDetector) :
  (load_if_needed settings fs (load_if_needed settings fs self).1).1
  = (load_if_needed settings fs self).1.
Proof.
  destruct (load_if_needed_cases self) as [(-> & Hl & Hm) | (-> & _)].
  - by rewrite load_if_needed_loaded.
  - destruct (load_if_needed_cases (registry_after_load settings fs None))
      as [(-> & _) | (-> & _)]; reflexivity.
Qed.

Lemma refit_same (self : AnomalyDetector) (X : matrix) :
  same_up_to_fit (refit sqrt self X) self.
Proof.
  unfold refit, same_up_to_fit.
  destruct (_scaler self) as [sc |] eqn:Hsc; [| by rewrite Hsc].
  destruct (fit_transform sqrt sc X) as [e | fitted];
    cbn [_model _scaler _model_loaded]; rewrite ?Hsc; by repeat split.
Qed.

Lemma same_up_to_fit_sym (a b : AnomalyDetector) :
  same_up_to_fit a b -> same_up_to_fit b a.
Proof.
  intros (Hm & Hl & Hs). split; [by symmetry |]. split; [by symmetry |].
  by symmetry.
Qed.

Lemma same_up_to_fit_load (a b : AnomalyDetector) :
  same_up_to_fit a b ->
  same_up_to_fit (load_if_needed settings fs a).1 (load_if_needed settings fs b).1.
Proof.
  intros (Hm & Hl & Hs).
  destruct (load_if_needed_cases a) as [(-> & Hla & Hma) | (-> & Ha)];
    destruct (load_if_needed_cases b) as [(-> & Hlb & Hmb) | (-> & Hb)].
  - exact (conj Hm (conj Hl Hs)).
  - exfalso. rewrite <- Hl, <- Hm in Hb. destruct Hb; congruence.
  - exfalso. rewrite Hl, Hm in Ha. destruct Ha; congruence.
  - by repeat split.
Qed.

Lemma scaled_same (a b : AnomalyDetector) (X : matrix) :
  same_up_to_fit a b ->
  scaled sqrt (_scaler a) X = scaled sqrt (_scaler b) X.
Proof.
  intros (_ & _ & Hs).
  destruct (_scaler a) as [sa |], (_scaler b) as [sb |]; try reflexivity.
  - exfalso. by destruct Hs as [_ Hs]; specialize (Hs eq_refl).
  - exfalso. by destruct Hs as [Hs _]; specialize (Hs eq_refl).
Qed.

Lemma detect_outputs_same (a b : AnomalyDetector) (t : TransactionCreate) :
  same_up_to_fit a b ->
  detect_outputs hash sqrt a t = detect_outputs hash sqrt b t.
Proof.
  intros H. unfold detect_outputs.
  rewrite (scaled_same a b _ H). destruct H as (-> & _). reflexivity.
Qed.

Lemma detect_batch_outputs_same (a b : AnomalyDetector)
    (ts : list TransactionCreate) :
  same_up_to_fit a b ->
  detect_batch_outputs hash sqrt a ts = detect_batch_outputs hash sqrt b ts.
Proof.
  intros H. unfold detect_batch_outputs.
  destruct (vstack _) as [e | X0]; cbn [result_bind]; [reflexivity |].
  rewrite (scaled_same a b _ H). destruct H as (-> & _). reflexivity.
Qed.

(** The registry after a call of [detect]. *)
Lemma detect_state (now : Z) (t : TransactionCreate) (self : AnomalyDetector) :
  (detect hash repr sqrt settings fs now t self).1
  = refit sqrt (load_if_needed settings fs self).1 (_extract_features hash t).
Proof.
  unfold detect, refit.
  pose proof (load_if_needed_ok settings fs self) as Hl.
  unfold bind at 1.
  destruct (load_if_needed settings fs self) as [self1 u]. cbn [snd fst] in *.
  subst u. unfold scale_features, model_attr.
  run_M.
  destruct (_model self1) as [m |] eqn:Hm;
    (destruct (_scaler self1) as [sc |];
     [destruct (fit_transform sqrt sc _) as [e | [sc' X]] |];
     cbn [fst snd _model]; rewrite ?Hm; try reflexivity).
  all: destruct (predict m _) as [e | ps]; cbn [fst snd _model]; [reflexivity |].
  all: destruct (index ps 0) as [e | p]; cbn [fst snd _model]; [reflexivity |].
  all: rewrite ?Hm.
  all: destruct (score_samples m _) as [e | ss]; cbn [fst snd _model]; [reflexivity |].
  all: destruct (index ss 0) as [e | s]; cbn [fst snd _model]; reflexivity.
Qed.

(** The registry after a call of [detect_batch]. *)
Lemma detect_batch_state (now : nat -> Z) (ts : list TransactionCreate)
    (self : AnomalyDetector) :
  (detect_batch hash repr sqrt settings fs now ts self).1
  = match vstack (map (_extract_features hash) ts) with
    | inr X0 => refit sqrt (load_if_needed settings fs self).1 X0
    | inl _ => (load_if_needed settings fs self).1
    end.
Proof.
  unfold detect_batch, refit.
  pose proof (load_if_needed_ok settings fs self) as Hl.
  unfold bind at 1.
  destruct (load_if_needed settings fs self) as [self1 u]. cbn [snd fst] in *.
  subst u. unfold scale_features, model_attr.
  run_M.
  destruct (vstack _) as [e | X0]; cbn [fst snd _model]; [reflexivity |].
  destruct (_model self1) as [m |] eqn:Hm;
    (destruct (_scaler self1) as [sc |];
     [destruct (fit_transform sqrt sc _) as [e | [sc' X]] |];
     cbn [fst snd _model]; rewrite ?Hm; try reflexivity).
  all: destruct (predict m _) as [e | ps]; cbn [fst snd _model]; [reflexivity |].
  all: rewrite ?Hm.
  all: destruct (score_samples m _) as [e | ss]; cbn [fst snd _model]; reflexivity.
Qed.

Lemma detect_state_same (now : Z) (t : TransactionCreate) (self : AnomalyDetector) :
  same_up_to_fit (detect hash repr sqrt settings fs now t self).1
    (load_if_needed settings fs self).1.
Proof. rewrite detect_state. apply refit_same. Qed.

Lemma detect_batch_state_same (now : nat -> Z) (ts : list TransactionCreate)
    (self : AnomalyDetector) :
  same_up_to_fit (detect_batch hash repr sqrt settings fs now ts self).1
    (load_if_needed settings fs self).1.
Proof.
  rewrite detect_batch_state. destruct (vstack _); [by repeat split |].
  apply refit_same.
Qed.

(** A registry reached by a scoring call loads the way the one before
    the call did. *)
Lemma same_after_call (after before : AnomalyDetector) :
  same_up_to_fit after (load_if_needed settings fs before).1 ->
  same_up_to_fit (load_if_needed settings fs after).1
    (load_if_needed settings fs before).1.
Proof.
  intros H. apply same_up_to_fit_load in H.
  by rewrite load_if_needed_twice in H.
Qed.
End RegistryFacts.

(** ** Order facts on canonical rationals *)

Lemma pow10_pos (n : nat) : (0 < of_int (10 ^ Z.of_nat n))%Qc.
Proof.
  unfold Qclt. rewrite Qc_this_of_int. change (this 0%Qc) with (inject_Z 0).
  rewrite <- Zlt_Qlt. apply Z.pow_pos_nonneg; lia.
Qed.

Lemma Qcdiv_le_mono (x y p : Qc) :
  (0 < p)%Qc -> (x <= y)%Qc -> (x / p <= y / p)%Qc.
Proof.
  intros Hp Hxy. unfold Qcle in *. rewrite !Qc_this_div.
  unfold Qclt in Hp. change (this 0%Qc) with 0%Q in Hp.
  unfold Qdiv. apply Qmult_le_compat_r; [exact Hxy |].
  apply Qlt_le_weak, Qinv_lt_0_compat, Hp.
Qed.

Lemma Qcmult_le_mono_pos (x y p : Qc) :
  (0 < p)%Qc -> (x <= y)%Qc -> (x * p <= y * p)%Qc.
Proof.
  intros Hp Hxy. unfold Qcle, Qclt in *. rewrite !Qc_this_mult.
  change (this 0%Qc) with 0%Q in Hp.
  apply Qmult_le_compat_r; [exact Hxy | by apply Qlt_le_weak].
Qed.

Lemma of_int_le (a b : Z) : a <= b -> (of_int a <= of_int b)%Qc.
Proof. intros H. unfold Qcle. rewrite !Qc_this_of_int. by rewrite <- Zle_Qle. Qed.

(** ** The detector, beyond the specification *)

Section EngineFacts.
Variable hash : string -> Z.
Variable repr : TransactionCreate -> string.
Variable sqrt : float -> float.
Variable settings : Settings.
Variable fs : gmap string disk_file.

Lemma detect_result_same (a b : AnomalyDetector) (now : Z)
    (t : TransactionCreate) :
  same_up_to_fit a b ->
  detect_result hash repr sqrt settings a now t
  = detect_result hash repr sqrt settings b now t.
Proof.
  intros H. unfold detect_result. by rewrite (detect_outputs_same hash sqrt a b t H).
Qed.

Lemma detect_batch_result_same (a b : AnomalyDetector) (now : nat -> Z)
    (ts : list TransactionCreate) :
  same_up_to_fit a b ->
  detect_batch_result hash repr sqrt settings a now ts
  = detect_batch_result hash repr sqrt settings b now ts.
Proof.
  intros H. unfold detect_batch_result.
  by rewrite (detect_batch_outputs_same hash sqrt a b ts H).
Qed.

(** The outcomes of the loop depend on the model's answers and on the
    number of transactions only. *)
Lemma batch_loop_outcomes (ps : list Z) (ss : list float)
    (now now' : nat -> Z) (ts : list TransactionCreate) :
  forall (ts' : list TransactionCreate) (i : nat)
         (acc acc' : list TransactionResponse),
    length ts = length ts' ->
    map outcome acc = map outcome acc' ->
    result_map (map outcome) (batch_loop hash repr settings now ps ss i ts acc)
    = result_map (map outcome)
        (batch_loop hash repr settings now' ps ss i ts' acc').
Proof.
  induction ts as [| t ts IH]; intros [| t' ts'] i acc acc' Hlen Hacc;
    try discriminate.
  - cbn. by rewrite Hacc.
  - cbn [batch_loop]. unfold result_bind.
    destruct (index ss i) as [e | raw]; [reflexivity |].
    destruct (index ps i) as [e | label]; [reflexivity |].
    apply IH; [by injection Hlen |].
    rewrite !map_app, Hacc. reflexivity.
Qed.

Lemma fresh_registry_single (now : Z) (t : TransactionCreate) :
  detect_result hash repr sqrt settings fresh_registry now t = inl not_fitted.
Proof.
  unfold detect_result, detect_outputs, scaled, _extract_features.
  cbn [fresh_registry _scaler _model]. rewrite fit_transform_single.
  reflexivity.
Qed.

Lemma fresh_registry_batch (now : nat -> Z) (ts : list TransactionCreate) :
  ts <> [] ->
  detect_batch_result hash repr sqrt settings fresh_registry now ts
  = inl not_fitted.
Proof.
  intros Hne. unfold detect_batch_result, detect_batch_outputs.
  assert (Hv : vstack (map (_extract_features hash) ts)
               = inr (concat (map (_extract_features hash) ts))).
  { destruct ts; [done | reflexivity]. }
  rewrite Hv. cbn [result_bind].
  destruct (stacked_features hash ts) as [Hlen _].
  assert (HX0 : concat (map (_extract_features hash) ts) <> []).
  { intros E. rewrite E in Hlen. destruct ts; [done | discriminate]. }
  destruct (scaled_ok sqrt (_scaler fresh_registry) _ HX0) as [X ->].
  reflexivity.
Qed.

Lemma no_model_single (self : AnomalyDetector) (now : Z) (t : TransactionCreate) :
  _model self = None ->
  detect_result hash repr sqrt settings self now t
  = inl (AttributeError "'NoneType' object has no attribute 'predict'").
Proof.
  intros Hm. unfold detect_result, detect_outputs, scaled, _extract_features.
  destruct (_scaler self) as [sc |].
  - rewrite fit_transform_single, Hm. reflexivity.
  - rewrite Hm. reflexivity.
Qed.

Lemma no_model_batch (self : AnomalyDetector) (now : nat -> Z)
    (ts : list TransactionCreate) :
  _model self = None -> ts <> [] ->
  detect_batch_result hash repr sqrt settings self now ts
  = inl (AttributeError "'NoneType' object has no attribute 'predict'").
Proof.
  intros Hm Hne. unfold detect_batch_result, detect_batch_outputs.
  assert (Hv : vstack (map (_extract_features hash) ts)
               = inr (concat (map (_extract_features hash) ts))).
  { destruct ts; [done | reflexivity]. }
  rewrite Hv. cbn [result_bind].
  destruct (stacked_features hash ts) as [Hlen _].
  assert (HX0 : concat (map (_extract_features hash) ts) <> []).
  { intros E. rewrite E in Hlen. destruct ts; [done | discriminate]. }
  destruct (scaled_ok sqrt (_scaler self) _ HX0) as [X ->].
  rewrite Hm. reflexivity.
Qed.

Lemma resolved_default : resolved_path settings None = MODEL_PATH settings.
Proof. reflexivity. Qed.

(** X1. [load_model] replaces the registry wholesale: what it leaves
    behind is read off the file system and the path, whatever the
    registry held before; loading twice is loading once. *)
Theorem load_model_replaces_registry (model_path : option string)
    (self self' : AnomalyDetector) :
  load_model settings fs model_path self
  = load_model settings fs model_path self' /\
  load_model settings fs model_path
    (load_model settings fs model_path self).1
  = load_model settings fs model_path self.
Proof. by rewrite !load_model_run. Qed.

(** X2. With no artifact at the configured path, or one that cannot be
    deserialized, a registry that still has to load cannot score: every
    call of [detect], and of [detect_batch] on a non-empty list, raises
    the unfitted forest's [NotFittedError]. *)
Theorem unfitted_fallback_cannot_score (self : AnomalyDetector) :
  (fs !! MODEL_PATH settings = None \/
   exists e, fs !! MODEL_PATH settings = Some (unreadable e)) ->
  (_model_loaded self = false \/ _model self = None) ->
  (forall (now : Z) (t : TransactionCreate),
      (detect hash repr sqrt settings fs now t self).2 = inl not_fitted) /\
  (forall (clock : nat -> Z) (ts : list TransactionCreate),
      ts <> [] ->
      (detect_batch hash repr sqrt settings fs clock ts self).2
      = inl not_fitted).
Proof.
  intros Hfs Hself.
  assert (Hload : (load_if_needed settings fs self).1 = fresh_registry).
  { destruct (load_if_needed_cases settings fs self)
      as [(_ & Hl & Hm) | (-> & _)].
    - destruct Hself; congruence.
    - unfold registry_after_load. rewrite resolved_default.
      by destruct Hfs as [-> | [e ->]]. }
  split.
  - intros now t. rewrite detect_run, Hload. apply fresh_registry_single.
  - intros clock ts Hne. rewrite detect_batch_run, Hload.
    by apply fresh_registry_batch.
Qed.

(** X3. With a dict artifact that has no ['model'] entry at the
    configured path, a registry without a model cannot score either:
    [detect], and [detect_batch] on a non-empty list, raise
    [AttributeError], and [is_model_loaded] still answers false
    afterwards, so the next call reads the artifact again. *)
Theorem bundle_without_model_cannot_score (self : AnomalyDetector)
    (s : option StandardScaler) :
  fs !! MODEL_PATH settings = Some (pickled (bundle None s)) ->
  _model self = None ->
  (forall (now : Z) (t : TransactionCreate),
      (detect hash repr sqrt settings fs now t self).2
      = inl (AttributeError "'NoneType' object has no attribute 'predict'") /\
      (is_model_loaded (detect hash repr sqrt settings fs now t self).1).2
      = inr false) /\
  (forall (clock : nat -> Z) (ts : list TransactionCreate),
      ts <> [] ->
      (detect_batch hash repr sqrt settings fs clock ts self).2
      = inl (AttributeError "'NoneType' object has no attribute 'predict'") /\
      (is_model_loaded
         (detect_batch hash repr sqrt settings fs clock ts self).1).2
      = inr false).
Proof.
  intros Hfs Hself.
  assert (Hload : _model (load_if_needed settings fs self).1 = None).
  { destruct (load_if_needed_cases settings fs self)
      as [(_ & _ & Hm) | (-> & _)]; [done |].
    unfold registry_after_load. rewrite resolved_default, Hfs. reflexivity. }
  assert (Hready : forall after,
    same_up_to_fit after (load_if_needed settings fs self).1 ->
    (is_model_loaded after).2 = inr false).
  { intros after (Hm & _). unfold is_model_loaded. run_M.
    rewrite Hm, Hload. by rewrite andb_false_r. }
  split.
  - intros now t. split.
    + rewrite detect_run. by apply no_model_single.
    + apply Hready, detect_state_same.
  - intros clock ts Hne. split.
    + rewrite detect_batch_run. by apply no_model_batch.
    + apply Hready, detect_batch_state_same.
Qed.

(** X4. After any scoring call the registry is marked loaded, and a
    registry that was loaded with a model keeps that very model:
    scoring replaces nothing but the scaler's fitted statistics. *)
Theorem scoring_keeps_model_and_flag (self : AnomalyDetector) :
  (forall (now : Z) (t : TransactionCreate),
      let after := (detect hash repr sqrt settings fs now t self).1 in
      _model_loaded after = true /\
      (_model_loaded self = true -> _model self <> None ->
       _model after = _model self /\
       (_scaler after = None <-> _scaler self = None))) /\
  (forall (clock : nat -> Z) (ts : list TransactionCreate),
      let after := (detect_batch hash repr sqrt settings fs clock ts self).1 in
      _model_loaded after = true /\
      (_model_loaded self = true -> _model self <> None ->
       _model after = _model self /\
       (_scaler after = None <-> _scaler self = None))).
Proof.
  assert (H : forall after,
    same_up_to_fit after (load_if_needed settings fs self).1 ->
    _model_loaded after = true /\
    (_model_loaded self = true -> _model self <> None ->
     _model after = _model self /\
     (_scaler after = None <-> _scaler self = None))).
  { intros after (Hm & Hl & Hs). split.
    - rewrite Hl.
      destruct (load_if_needed_cases settings fs self)
        as [(-> & Hl' & _) | (-> & _)]; [exact Hl' |].
      apply registry_after_load_flag.
    - intros Hl' Hm'.
      rewrite (load_if_needed_loaded settings fs self Hl' Hm') in Hm, Hs.
      by split. }
  split.
  - intros now t. apply H, detect_state_same.
  - intros clock ts. apply H, detect_batch_state_same.
Qed.

(** X5. Scoring is history-independent: what a call returns does not
    depend on the scoring calls made before it on the same registry. *)
Theorem scoring_is_history_independent (self : AnomalyDetector)
    (now0 : Z) (t0 : TransactionCreate)
    (clock0 : nat -> Z) (ts0 : list TransactionCreate) :
  let after_single := (detect hash repr sqrt settings fs now0 t0 self).1 in
  let after_batch :=
    (detect_batch hash repr sqrt settings fs clock0 ts0 self).1 in
  (forall (now : Z) (t : TransactionCreate),
      (detect hash repr sqrt settings fs now t after_single).2
      = (detect hash repr sqrt settings fs now t self).2 /\
      (detect hash repr sqrt settings fs now t after_batch).2
      = (detect hash repr sqrt settings fs now t self).2) /\
  (forall (clock : nat -> Z) (ts : list TransactionCreate),
      (detect_batch hash repr sqrt settings fs clock ts after_single).2
      = (detect_batch hash repr sqrt settings fs clock ts self).2 /\
      (detect_batch hash repr sqrt settings fs clock ts after_batch).2
      = (detect_batch hash repr sqrt settings fs clock ts self).2).
Proof.
  intros after_single after_batch.
  pose proof (same_after_call settings fs after_single self
                (detect_state_same hash repr sqrt settings fs now0 t0 self))
    as Hs.
  pose proof (same_after_call settings fs after_batch self
                (detect_batch_state_same hash repr sqrt settings fs
                   clock0 ts0 self))
    as Hb.
  split.
  - intros now t. rewrite !detect_run.
    split; by apply detect_result_same.
  - intros clock ts. rewrite !detect_batch_run.
    split; by apply detect_batch_result_same.
Qed.
End EngineFacts.

Section ResultFacts.
Variable hash : string -> Z.
Variable repr : TransactionCreate -> string.
Variable sqrt : float -> float.
Variable settings : Settings.
Variable fs : gmap string disk_file.

(** X6. The identifier of every result is [hash(str(transaction)) mod
    1000000], on the single path and for every entry of a batch: it
    lies in [0, 1000000) and is computed from the rendered transaction
    alone, so two entries of a batch that hold the same transaction get
    the same identifier. *)
Theorem result_ids_bounded_not_unique :
  (forall (now : Z) (t : TransactionCreate) (self : AnomalyDetector)
          (r : TransactionResponse),
      (detect hash repr sqrt settings fs now t self).2 = inr r ->
      resp_id r = hash (repr t) mod 1000000 /\ 0 <= resp_id r < 1000000) /\
  (forall (clock : nat -> Z) (ts : list TransactionCreate)
          (self : AnomalyDetector) (rs : list TransactionResponse),
      (detect_batch hash repr sqrt settings fs clock ts self).2 = inr rs ->
      length rs = length ts /\
      (forall (i : nat) (t : TransactionCreate),
          ts !! i = Some t ->
          exists r,
            rs !! i = Some r /\
            resp_id r = hash (repr t) mod 1000000 /\
            0 <= resp_id r < 1000000) /\
      (forall (i j : nat) (t : TransactionCreate)
              (ri rj : TransactionResponse),
          ts !! i = Some t -> ts !! j = Some t ->
          rs !! i = Some ri -> rs !! j = Some rj ->
          resp_id ri = resp_id rj)).
Proof.
  split.
  - intros now t self r H.
    apply detect_scored in H as (X & label & raw & _ & _ & ->).
    split; [reflexivity |]. cbn. by apply Z.mod_pos_bound.
  - intros clock ts self rs H.
    apply detect_batch_scored in H as (_ & Hlen & X & _ & Hrows & _).
    split; [exact Hlen |]. split.
    + intros i t Hi. destruct (Hrows i t Hi) as (label & raw & _ & Hr).
      eexists. split; [exact Hr |]. split; [reflexivity |].
      cbn. by apply Z.mod_pos_bound.
    + intros i j t ri rj Hi Hj Hri Hrj.
      destruct (Hrows i t Hi) as (li & rawi & _ & Hri').
      destruct (Hrows j t Hj) as (lj & rawj & _ & Hrj').
      rewrite Hri in Hri'. rewrite Hrj in Hrj'. by simplify_eq.
Qed.

(** X9. The fraud score and the verdict depend on a transaction through
    its feature vector only: transactions with the same features get
    the same outcome from [detect], and batches with the same feature
    vectors, position by position, get the same outcomes from
    [detect_batch]. *)
Theorem outcomes_depend_on_features_only (self : AnomalyDetector) :
  (forall (now now' : Z) (t t' : TransactionCreate),
      _extract_features hash t = _extract_features hash t' ->
      result_map outcome (detect hash repr sqrt settings fs now t self).2
      = result_map outcome
          (detect hash repr sqrt settings fs now' t' self).2) /\
  (forall (clock clock' : nat -> Z) (ts ts' : list TransactionCreate),
      map (_extract_features hash) ts = map (_extract_features hash) ts' ->
      result_map (map outcome)
        (detect_batch hash repr sqrt settings fs clock ts self).2
      = result_map (map outcome)
          (detect_batch hash repr sqrt settings fs clock' ts' self).2).
Proof.
  split.
  - intros now now' t t' Hf. rewrite !detect_run.
    unfold detect_result.
    assert (Ho : detect_outputs hash sqrt (load_if_needed settings fs self).1 t
                 = detect_outputs hash sqrt
                     (load_if_needed settings fs self).1 t').
    { unfold detect_outputs. by rewrite Hf. }
    rewrite Ho. clear Ho. unfold result_map.
    destruct (detect_outputs _ _ _ _) as [e | [label raw]]; reflexivity.
  - intros clock clock' ts ts' Hf. rewrite !detect_batch_run.
    unfold detect_batch_result.
    assert (Ho : detect_batch_outputs hash sqrt
                   (load_if_needed settings fs self).1 ts
                 = detect_batch_outputs hash sqrt
                     (load_if_needed settings fs self).1 ts').
    { unfold detect_batch_outputs. by rewrite Hf. }
    rewrite Ho. clear Ho.
    destruct (detect_batch_outputs _ _ _ _) as [e | [ps ss]];
      cbn [result_bind]; [reflexivity |].
    apply batch_loop_outcomes; [| reflexivity].
    apply (f_equal length) in Hf. by rewrite !length_map in Hf.
Qed.

(** X11. A legacy artifact (a bare model) and a bundle that holds the
    same model next to any scaler score alike: a registry that still has
    to load returns the same from [detect] and from [detect_batch] on
    either file system. *)
Theorem legacy_and_bundle_score_alike (fs_legacy fs_bundle : gmap string disk_file)
    (m : IsolationForest) (sc : StandardScaler) (self : AnomalyDetector) :
  fs_legacy !! MODEL_PATH settings = Some (pickled (legacy m)) ->
  fs_bundle !! MODEL_PATH settings
  = Some (pickled (bundle (Some m) (Some sc))) ->
  _model_loaded self = false ->
  (forall (now : Z) (t : TransactionCreate),
      (detect hash repr sqrt settings fs_legacy now t self).2
      = (detect hash repr sqrt settings fs_bundle now t self).2) /\
  (forall (clock : nat -> Z) (ts : list TransactionCreate),
      (detect_batch hash repr sqrt settings fs_legacy clock ts self).2
      = (detect_batch hash repr sqrt settings fs_bundle clock ts self).2).
Proof.
  intros Hl Hb Hself.
  assert (Hsame : same_up_to_fit (load_if_needed settings fs_legacy self).1
                    (load_if_needed settings fs_bundle self).1).
  { destruct (load_if_needed_cases settings fs_legacy self)
      as [(_ & E & _) | (-> & _)]; [congruence |].
    destruct (load_if_needed_cases settings fs_bundle self)
      as [(_ & E & _) | (-> & _)]; [congruence |].
    unfold registry_after_load. rewrite resolved_default, Hl, Hb.
    by repeat split. }
  split.
  - intros now t. rewrite !detect_run. by apply detect_result_same.
  - intros clock ts. rewrite !detect_batch_run.
    by apply detect_batch_result_same.
Qed.
End ResultFacts.

(** ** The serving layer *)

Lemma get_instance_run (cls : AnomalyDetector_class) :
  (get_instance cls).1 = {| _instance := Some (instance_of cls) |}.
Proof.
  unfold get_instance, new, instance_of.
  destruct cls as [[self |]]; reflexivity.
Qed.

Lemma on_instance_run {A} (name : string) (method : M A)
    (cls : AnomalyDetector_class) :
  on_instance name method (get_instance cls).1
  = ({| _instance := Some (method (instance_of cls)).1 |},
     (method (instance_of cls)).2).
Proof. rewrite get_instance_run. reflexivity. Qed.

Lemma py_sum_ones_from {A} (l : list A) (acc : Z) :
  fold_left Z.add (map (fun _ => 1) l) acc = acc + len l.
Proof.
  revert acc. induction l as [| x l IH]; intros acc; unfold len in *; cbn [map fold_left length].
  - lia.
  - rewrite IH. lia.
Qed.

Lemma py_sum_ones {A} (l : list A) : py_sum (map (fun _ => 1) l) = len l.
Proof. unfold py_sum. rewrite py_sum_ones_from. lia. Qed.

Lemma filter_length_le {A} (f : A -> bool) (l : list A) :
  (length (List.filter f l) <= length l)%nat.
Proof.
  induction l as [| x l IH]; [done |]. cbn. destruct (f x); cbn; lia.
Qed.

(** The counts of a detection response. *)
Lemma detection_response_counts (rs : list TransactionResponse) :
  let response := detection_response rs in
  results response = rs /\
  total_transactions response = len rs /\
  fraud_count response = len (List.filter is_fraud rs) /\
  fraud_count response + normal_count response = total_transactions response /\
  0 <= fraud_count response <= total_transactions response /\
  0 <= normal_count response <= total_transactions response.
Proof.
  cbn. rewrite py_sum_ones. unfold len.
  pose proof (filter_length_le is_fraud rs). repeat split; lia.
Qed.

Section RouteFacts.
Variable hash : string -> Z.
Variable repr : TransactionCreate -> string.
Variable sqrt : float -> float.
Variable settings : Settings.
Variable fs : gmap string disk_file.
Variable rt : Runtime.

Lemma detect_batch_empty_result (clock : nat -> Z) (self : AnomalyDetector) :
  (detect_batch hash repr sqrt settings fs clock [] self).2
  = inl (ValueError "need at least one array to concatenate").
Proof. rewrite detect_batch_run. reflexivity. Qed.

Lemma detect_fraud_run (clock : nat -> Z) (request : DetectionRequest)
    (cls : AnomalyDetector_class) :
  let call :=
    detect_batch hash repr sqrt settings fs clock (transactions request)
      (instance_of cls) in
  detect_fraud hash repr sqrt settings fs clock request cls
  = ({| _instance := Some call.1 |},
     match call.2 with
     | inr rs => inr (detection_response rs)
     | inl e =>
       inl {| status_code := 500;
              detail := "Error during detection: " +:+ str_exn e |}
     end).
Proof.
  cbn zeta. unfold detect_fraud. rewrite on_instance_run. cbn [fst snd].
  by destruct (detect_batch _ _ _ _ _ _ _ _).2.
Qed.

(** X12. When [POST /detect] answers, the response carries the batch
    results in order, [total_transactions] is the number of submitted
    transactions, [fraud_count] is the number of results flagged as
    fraud, and [fraud_count + normal_count = total_transactions] with
    both counts between 0 and the total. *)
Theorem detect_fraud_counts (clock : nat -> Z) (request : DetectionRequest)
    (cls : AnomalyDetector_class) (response : DetectionResponse) :
  (detect_fraud hash repr sqrt settings fs clock request cls).2
  = inr response ->
  (detect_batch hash repr sqrt settings fs clock (transactions request)
     (instance_of cls)).2 = inr (results response) /\
  total_transactions response = len (transactions request) /\
  fraud_count response = len (List.filter is_fraud (results response)) /\
  fraud_count response + normal_count response = total_transactions response /\
  0 <= fraud_count response <= total_transactions response /\
  0 <= normal_count response <= total_transactions response.
Proof.
  rewrite detect_fraud_run. cbn [snd].
  destruct (detect_batch _ _ _ _ _ _ _ _).2 as [e | rs] eqn:Hrs;
    [discriminate |].
  intros [= <-].
  destruct (detection_response_counts rs) as (Hr & Ht & Hf & Hsum & Hfb & Hnb).
  rewrite Hr. split; [reflexivity |].
  apply detect_batch_scored in Hrs as (_ & Hlen & _).
  split; [rewrite Ht; unfold len; by rewrite Hlen |].
  exact (conj Hf (conj Hsum (conj Hfb Hnb))).
Qed.

(** X13. [POST /detect] with an empty transaction list answers HTTP 500
    with the stacking error as detail; it does not answer an empty
    result list. *)
Theorem detect_fraud_empty_is_500 (clock : nat -> Z)
    (cls : AnomalyDetector_class) :
  (detect_fraud hash repr sqrt settings fs clock {| transactions := [] |}
     cls).2
  = inl {| status_code := 500;
           detail := "Error during detection: need at least one array to concatenate" |}.
Proof.
  rewrite detect_fraud_run. cbn [snd transactions].
  rewrite detect_batch_empty_result. reflexivity.
Qed.
End RouteFacts.

Section UploadFacts.
Variable hash : string -> Z.
Variable repr : TransactionCreate -> string.
Variable sqrt : float -> float.
Variable settings : Settings.
Variable fs : gmap string disk_file.
Variable rt : Runtime.

Lemma csv_name_check (file : UploadFile) :
  negb (truthy (filename file))
  || negb (endswith (str (filename file)) ".csv")
  = negb (csv_name file).
Proof. unfold csv_name. by rewrite negb_andb. Qed.

Lemma missing_columns_cases (df : DataFrame) :
  List.filter (fun col => negb (bool_decide (col ∈ columns df))) ["amount"]
  = if bool_decide ("amount" ∈ columns df) then [] else ["amount"].
Proof. cbn. by destruct (bool_decide _). Qed.

Lemma row_to_transaction_inv (row : gmap string cell) (t : TransactionCreate) :
  row_to_transaction rt row = inr t ->
  (0 < amount t)%Qc /\
  customer_id t = Some (str_of_cell rt (row !! "customer_id")) /\
  is_Some (row !! "amount").
Proof.
  unfold row_to_transaction.
  destruct (row !! "amount") as [c |]; [| discriminate].
  destruct (float_of_cell rt c) as [e | [x |]]; [discriminate | | discriminate].
  unfold new_TransactionCreate. case_bool_decide as Hx; [| discriminate].
  destruct (validate_text rt _) as [m |]; [| discriminate].
  destruct (validate_text rt _) as [c' |]; [| discriminate].
  intros [= <-]. by repeat split.
Qed.

Lemma rows_to_transactions_inv (rows : list (gmap string cell)) :
  forall (acc ts : list TransactionCreate),
    rows_to_transactions rt rows acc = inr ts ->
    exists new,
      ts = acc ++ new /\ length new = length rows /\
      Forall2 (fun row t => row_to_transaction rt row = inr t) rows new.
Proof.
  induction rows as [| row rows IH]; intros acc ts H; cbn in H.
  - injection H as <-. exists []. rewrite app_nil_r. by repeat split.
  - destruct (row_to_transaction rt row) as [e | t] eqn:Ht; [discriminate |].
    apply IH in H as (new & -> & Hlen & Hall).
    exists (t :: new). rewrite <- app_assoc. split; [reflexivity |].
    split; [cbn; by rewrite Hlen |]. by constructor.
Qed.

(** The upload route by cases. *)
Lemma upload_run (clock : nat -> Z) (file : UploadFile)
    (cls : AnomalyDetector_class) :
  (upload_transactions hash repr sqrt settings fs rt clock file cls).2
  = if csv_name file then
      match read_csv rt (contents file) with
      | inl (raised_empty_data _) =>
        inl {| status_code := 400; detail := "CSV file is empty" |}
      | inl e =>
        inl {| status_code := 500;
               detail := "Error processing file: " +:+ str_raised rt e |}
      | inr df =>
        if bool_decide ("amount" ∈ columns df) then
          match rows_to_transactions rt (rows df) [] with
          | inl (raised_empty_data _) =>
            inl {| status_code := 400; detail := "CSV file is empty" |}
          | inl e =>
            inl {| status_code := 500;
                   detail := "Error processing file: " +:+ str_raised rt e |}
          | inr ts =>
            match (detect_batch hash repr sqrt settings fs clock ts
                     (instance_of cls)).2 with
            | inr rs => inr (detection_response rs)
            | inl e =>
              inl {| status_code := 500;
                     detail := "Error processing file: " +:+ str_exn e |}
            end
          end
        else
          inl {| status_code := 500;
                 detail :=
                   "Error processing file: "
                   +:+ str_http rt
                         {| status_code := 400;
                            detail := "Missing required columns: amount" |} |}
      end
    else
      inl {| status_code := 500;
             detail :=
               "Error processing file: "
               +:+ str_http rt {| status_code := 400;
                                  detail := "File must be a CSV file" |} |}.
Proof.
  unfold upload_transactions, upload_body.
  rewrite csv_name_check. destruct (csv_name file); cbn [negb]; [| reflexivity].
  destruct (read_csv rt (contents file)) as [[e | h | msg] | df];
    try reflexivity.
  rewrite missing_columns_cases.
  destruct (bool_decide _); [| reflexivity].
  destruct (rows_to_transactions rt (rows df) []) as [[e | h | msg] | ts];
    try reflexivity.
  rewrite on_instance_run. cbn [fst snd].
  by destruct (detect_batch _ _ _ _ _ _ _ _).2.
Qed.

Lemma rows_to_transactions_no_empty_data (rows : list (gmap string cell)) :
  forall (acc : list TransactionCreate) (msg : string),
    rows_to_transactions rt rows acc <> inl (raised_empty_data msg).
Proof.
  induction rows as [| row rows IH]; intros acc msg; cbn; [discriminate |].
  unfold row_to_transaction.
  destruct (row !! "amount") as [c |]; [| discriminate].
  unfold float_of_cell, new_TransactionCreate.
  destruct c as [x | | s]; try discriminate.
  - case_bool_decide; [| discriminate].
    destruct (validate_text rt _); [| discriminate].
    destruct (validate_text rt _); [apply IH | discriminate].
  - destruct (float_of_string rt s) as [[x |] |]; try discriminate.
    case_bool_decide; [| discriminate].
    destruct (validate_text rt _); [| discriminate].
    destruct (validate_text rt _); [apply IH | discriminate].
Qed.

(** X14. The two client errors the upload route raises as HTTP 400 are
    caught by its own [except Exception] and answered as HTTP 500: a
    file whose name is missing or does not end in [.csv], and a CSV
    without an [amount] column. *)
Theorem upload_client_errors_answer_500 (clock : nat -> Z)
    (file : UploadFile) (cls : AnomalyDetector_class) :
  (csv_name file = false ->
   (upload_transactions hash repr sqrt settings fs rt clock file cls).2
   = inl {| status_code := 500;
            detail :=
              "Error processing file: "
              +:+ str_http rt {| status_code := 400;
                                 detail := "File must be a CSV file" |} |}) /\
  (forall df : DataFrame,
      csv_name file = true ->
      read_csv rt (contents file) = inr df ->
      "amount" ∉ columns df ->
      (upload_transactions hash repr sqrt settings fs rt clock file cls).2
      = inl {| status_code := 500;
               detail :=
                 "Error processing file: "
                 +:+ str_http rt
                       {| status_code := 400;
                          detail := "Missing required columns: amount" |} |}).
Proof.
  split.
  - intros Hn. by rewrite upload_run, Hn.
  - intros df Hn Hdf Hcol. rewrite upload_run, Hn, Hdf.
    by rewrite bool_decide_eq_false_2.
Qed.

(** X15. Every error of the upload route is HTTP 400 or HTTP 500, and it
    is 400 only when the file name passed the check and parsing raised
    [EmptyDataError]; the detail is then "CSV file is empty". *)
Theorem upload_400_only_for_empty_data (clock : nat -> Z)
    (file : UploadFile) (cls : AnomalyDetector_class) (h : HTTPException) :
  (upload_transactions hash repr sqrt settings fs rt clock file cls).2
  = inl h ->
  (status_code h = 400 \/ status_code h = 500) /\
  (status_code h = 400 <->
   csv_name file = true /\
   exists msg, read_csv rt (contents file) = inl (raised_empty_data msg)) /\
  (status_code h = 400 -> detail h = "CSV file is empty").
Proof.
  rewrite upload_run.
  destruct (csv_name file).
  2:{ intros [= <-]. cbn. split; [by right |].
      split; [split; [done | by intros [? _]] | done]. }
  destruct (read_csv rt (contents file)) as [[e | h' | msg] | df] eqn:Hread.
  - intros [= <-]. cbn. split; [by right |].
    split; [split; [done | by intros [_ [? ?]]] | done].
  - intros [= <-]. cbn. split; [by right |].
    split; [split; [done | by intros [_ [? ?]]] | done].
  - intros [= <-]. cbn. split; [by left |].
    split; [split; [by eauto | done] | done].
  - destruct (bool_decide _).
    2:{ intros [= <-]. cbn. split; [by right |].
        split; [split; [done | by intros [_ [? ?]]] | done]. }
    destruct (rows_to_transactions rt (rows df) []) as [[e | h' | msg] | ts]
      eqn:Hrows.
    + intros [= <-]. cbn. split; [by right |].
      split; [split; [done | by intros [_ [? ?]]] | done].
    + intros [= <-]. cbn. split; [by right |].
      split; [split; [done | by intros [_ [? ?]]] | done].
    + by apply rows_to_transactions_no_empty_data in Hrows.
    + destruct (detect_batch _ _ _ _ _ _ _ _).2; [| discriminate].
      intros [= <-]. cbn. split; [by right |].
      split; [split; [done | by intros [_ [? ?]]] | done].
Qed.

(** X16. When the upload route answers, the file name ended in [.csv],
    the parsed frame had an [amount] column, every row became one
    transaction with a positive amount and a customer id that is text
    (never absent), and the response counts are those of the batch:
    [total_transactions] is the number of rows. *)
Theorem upload_success_counts (clock : nat -> Z) (file : UploadFile)
    (cls : AnomalyDetector_class) (response : DetectionResponse) :
  (upload_transactions hash repr sqrt settings fs rt clock file cls).2
  = inr response ->
  csv_name file = true /\
  exists (df : DataFrame) (ts : list TransactionCreate),
    read_csv rt (contents file) = inr df /\
    "amount" ∈ columns df /\
    rows_to_transactions rt (rows df) [] = inr ts /\
    Forall2 (fun row t =>
               (0 < amount t)%Qc /\
               customer_id t = Some (str_of_cell rt (row !! "customer_id")))
      (rows df) ts /\
    (detect_batch hash repr sqrt settings fs clock ts (instance_of cls)).2
    = inr (results response) /\
    total_transactions response = len (rows df) /\
    fraud_count response + normal_count response
    = total_transactions response.
Proof.
  rewrite upload_run.
  destruct (csv_name file); [| discriminate].
  destruct (read_csv rt (contents file)) as [[e | h' | msg] | df];
    try discriminate.
  case_bool_decide as Hcol; [| discriminate].
  destruct (rows_to_transactions rt (rows df) []) as [[e | h' | msg] | ts]
    eqn:Hrows; try discriminate.
  destruct (detect_batch _ _ _ _ _ _ _ _).2 as [e | rs] eqn:Hrs;
    [discriminate |].
  intros [= <-]. split; [reflexivity |]. exists df, ts.
  destruct (detection_response_counts rs) as (Hr & Ht & _ & Hsum & _).
  pose proof Hrows as Hts.
  apply rows_to_transactions_inv in Hrows as (new & E & Hlen & Hall).
  cbn [app] in E. subst new.
  split; [reflexivity |]. split; [exact Hcol |]. split.
  { exact Hts. }
  split.
  { eapply Forall2_impl; [| exact Hall]. intros row t Hrow.
    apply row_to_transaction_inv in Hrow as (Hp & Hc & _). by split. }
  rewrite Hr. split; [exact Hrs |].
  apply detect_batch_scored in Hrs as (_ & Hl & _).
  split; [rewrite Ht; unfold len; by rewrite Hl, Hlen | exact Hsum].
Qed.

(** X17. A CSV with an [amount] column and no data rows is answered
    with HTTP 500 and the stacking error as detail, not with an empty
    result. *)
Theorem upload_without_rows_is_500 (clock : nat -> Z) (file : UploadFile)
    (cls : AnomalyDetector_class) (df : DataFrame) :
  csv_name file = true ->
  read_csv rt (contents file) = inr df ->
  "amount" ∈ columns df ->
  rows df = [] ->
  (upload_transactions hash repr sqrt settings fs rt clock file cls).2
  = inl {| status_code := 500;
           detail := "Error processing file: need at least one array to concatenate" |}.
Proof.
  intros Hn Hdf Hcol Hrows. rewrite upload_run, Hn, Hdf, Hrows.
  rewrite bool_decide_eq_true_2 by exact Hcol. cbn [rows_to_transactions].
  rewrite detect_batch_run. reflexivity.
Qed.
End UploadFacts.

Lemma of_int_mult (a b : Z) : of_int (a * b) = (of_int a * of_int b)%Qc.
Proof.
  apply Qc_eq_this. rewrite Qc_this_mult, !Qc_this_of_int.
  rewrite inject_Z_mult. reflexivity.
Qed.

(** Rounding keeps a value between the whole numbers around it. *)
Lemma py_round_between (x : float) (a b : Z) (n : nat) :
  (of_int a <= x)%Qc -> (x <= of_int b)%Qc ->
  (of_int a <= py_round x n)%Qc /\ (py_round x n <= of_int b)%Qc.
Proof.
  intros Ha Hb. unfold py_round.
  pose proof (pow10_pos n) as Hp.
  set (p := 10 ^ Z.of_nat n) in *.
  assert (Hp0 : of_int p <> 0%Qc).
  { intros E. rewrite E in Hp. by apply Qclt_not_eq in Hp. }
  destruct (round_half_even_bounds (x * of_int p)%Qc (a * p) (b * p))
    as [Hlo Hhi].
  { rewrite of_int_mult. by apply Qcmult_le_mono_pos. }
  { rewrite of_int_mult. by apply Qcmult_le_mono_pos. }
  split.
  - rewrite <- (Qcdiv_mult_l (of_int a) (of_int p) Hp0), <- of_int_mult.
    apply Qcdiv_le_mono; [exact Hp |]. by apply of_int_le.
  - rewrite <- (Qcdiv_mult_l (of_int b) (of_int p) Hp0), <- of_int_mult.
    apply Qcdiv_le_mono; [exact Hp |]. by apply of_int_le.
Qed.

Lemma percentage_bounds (f n : Z) :
  0 <= f <= n -> 0 < n ->
  (of_int 0 <= of_int f / of_int n * of_int 100)%Qc /\
  (of_int f / of_int n * of_int 100 <= of_int 100)%Qc.
Proof.
  intros [Hf0 Hfn] Hn.
  rewrite Zle_Qle in Hf0, Hfn. rewrite Zlt_Qlt in Hn.
  unfold Qcle. rewrite !Qc_this_mult, !Qc_this_div, !Qc_this_of_int.
  set (F := inject_Z f) in *. set (N := inject_Z n) in *.
  change (inject_Z 0) with 0%Q in *. change (inject_Z 100) with (100 # 1)%Q.
  assert (H0 : (0 <= F / N)%Q) by (apply Qle_shift_div_l; lra).
  assert (H1 : (F / N <= 1)%Q) by (apply Qle_shift_div_r; lra).
  split; lra.
Qed.

Section ServiceFacts.
Variable hash : string -> Z.
Variable repr : TransactionCreate -> string.
Variable sqrt : float -> float.
Variable settings : Settings.
Variable fs : gmap string disk_file.
Variable rt : Runtime.

(** X18. [GET /stats] on a database that answers: the total is the
    number of rows, the fraud count is the number of rows whose flag is
    true, fraud and normal counts add up to the total, and the fraud
    rate lies between 0 and 100; on an empty table everything is 0 (no
    division is attempted).  On a database that raises, the answer is
    HTTP 500. *)
Theorem get_statistics_consistent :
  (forall table : list models.Transaction,
      exists stats,
        get_statistics rt (live table) = inr stats /\
        stats_total_transactions stats = len table /\
        fraud_transactions stats
        = len (List.filter
                 (fun row => bool_decide (models.is_fraud row = Some true))
                 table) /\
        fraud_transactions stats + normal_transactions stats
        = stats_total_transactions stats /\
        0 <= fraud_transactions stats <= stats_total_transactions stats /\
        (of_int 0 <= fraud_rate stats)%Qc /\
        (fraud_rate stats <= of_int 100)%Qc /\
        (table = [] ->
         stats_total_transactions stats = 0 /\
         fraud_transactions stats = 0 /\ normal_transactions stats = 0 /\
         fraud_rate stats = 0%Qc)) /\
  (forall e : exn,
      get_statistics rt (broken e)
      = inl {| status_code := 500;
               detail := "Error retrieving statistics: " +:+ str_exn e |}).
Proof.
  split; [| reflexivity].
  intros table. eexists. split; [reflexivity |].
  cbn [stats_total_transactions fraud_transactions normal_transactions
       fraud_rate].
  set (fraud := List.filter _ table).
  pose proof (filter_length_le
                (fun row => bool_decide (models.is_fraud row = Some true))
                table) as Hle.
  fold fraud in Hle.
  split; [reflexivity |]. split; [reflexivity |].
  split; [lia |]. split; [unfold len; lia |].
  match goal with |- context [py_round ?r 2] => set (rate := r) end.
  assert (Hrate : (of_int 0 <= rate)%Qc /\ (rate <= of_int 100)%Qc).
  { subst rate. case_bool_decide as Hpos.
    - apply percentage_bounds; [unfold len in *; lia | exact Hpos].
    - split; by apply (bool_decide_unpack _). }
  destruct Hrate as [H0 H100].
  destruct (py_round_between rate 0 100 2 H0 H100) as [Hr0 Hr100].
  split; [exact Hr0 |]. split; [exact Hr100 |].
  intros ->. repeat split. apply Qc_eq_this. reflexivity.
Qed.

Lemma is_model_loaded_run (self : AnomalyDetector) :
  is_model_loaded self
  = (self, inr (_model_loaded self && bool_decide (_model self <> None))).
Proof. reflexivity. Qed.

(** X19. [GET /health] always answers with a body, never with the
    HTTP 503 fallback: [status] is "healthy" exactly when the database
    answered and [is_model_loaded] is true, and "degraded" otherwise.
    The check creates the detector instance if there was none and
    changes nothing else. *)
Theorem health_check_status (db : Session) (now : Z)
    (cls : AnomalyDetector_class) :
  exists body,
    health_check db now cls
    = ({| _instance := Some (instance_of cls) |}, inr body) /\
    model_loaded body
    = (_model_loaded (instance_of cls)
       && bool_decide (_model (instance_of cls) <> None)) /\
    (database body = "connected" <-> exists table, db = live table) /\
    (status body = "healthy" <->
     (exists table, db = live table) /\ model_loaded body = true) /\
    (status body = "healthy" \/ status body = "degraded").
Proof.
  unfold health_check. rewrite on_instance_run, is_model_loaded_run.
  cbn [fst snd]. eexists. split; [reflexivity |].
  cbn [model_loaded database status]. split; [reflexivity |].
  destruct db as [table | e]; cbn.
  - split; [split; [by eauto | done] |].
    destruct (_ && _); cbn.
    + split; [split; [by eauto | done] | by left].
    + split; [split; [done | by intros [_ ?]] | by right].
  - split; [split; [done | by intros [? ?]] |].
    split; [split; [done | by intros [[? ?] _]] | by right].
Qed.

Lemma startup_run (db : Session) (cls : AnomalyDetector_class) :
  startup settings fs db cls
  = match db with
    | live _ =>
      ({| _instance := Some (registry_after_load settings fs None) |}, inr tt)
    | broken e => (cls, inl e)
    end.
Proof.
  unfold startup, init_db. destruct db as [table | e]; [| reflexivity].
  cbn [Ok]. rewrite on_instance_run, load_model_run. reflexivity.
Qed.

(** X20. Startup fails exactly when creating the tables fails, and then
    the detector class is left as it was (no instance is created and no
    model is loaded); otherwise it succeeds and the class holds the
    registry read from the default artifact path, marked loaded,
    whatever it held before. *)
Theorem startup_outcome (cls : AnomalyDetector_class) :
  (forall e : exn, startup settings fs (broken e) cls = (cls, inl e)) /\
  (forall table : list models.Transaction,
      exists self,
        startup settings fs (live table) cls
        = ({| _instance := Some self |}, inr tt) /\
        (load_model settings fs None unloaded).1 = self /\
        _model_loaded self = true).
Proof.
  split; [intros e; by rewrite startup_run |].
  intros table. exists (registry_after_load settings fs None).
  rewrite startup_run, load_model_run.
  split; [reflexivity |]. split; [reflexivity |].
  apply registry_after_load_flag.
Qed.

(** X21. With no artifact at the configured path (or an unreadable
    one), the service starts, [GET /health] reports "healthy" with
    [model_loaded] true, and yet [POST /detect] answers HTTP 500 to
    every non-empty request: the fallback forest was never fitted. *)
Theorem healthy_but_cannot_score (table : list models.Transaction)
    (cls : AnomalyDetector_class) :
  (fs !! MODEL_PATH settings = None \/
   exists e, fs !! MODEL_PATH settings = Some (unreadable e)) ->
  let started := (startup settings fs (live table) cls).1 in
  (startup settings fs (live table) cls).2 = inr tt /\
  (forall now : Z,
      exists body,
        (health_check (live table) now started).2 = inr body /\
        status body = "healthy" /\ model_loaded body = true) /\
  (forall (clock : nat -> Z) (request : DetectionRequest),
      transactions request <> [] ->
      (detect_fraud hash repr sqrt settings fs clock request started).2
      = inl {| status_code := 500;
               detail := "Error during detection: This IsolationForest instance is not fitted yet. Call 'fit' with appropriate arguments before using this estimator." |}).
Proof.
  intros Hfs started. subst started. rewrite startup_run. cbn [fst snd].
  assert (Hfresh : registry_after_load settings fs None = fresh_registry).
  { unfold registry_after_load. change (resolved_path settings None)
      with (MODEL_PATH settings).
    by destruct Hfs as [-> | [e ->]]. }
  rewrite Hfresh. split; [reflexivity |]. split.
  - intros now. eexists. split; [reflexivity |]. by split.
  - intros clock request Hne. rewrite detect_fraud_run. cbn [snd instance_of _instance].
    rewrite detect_batch_run, load_if_needed_loaded by done. cbn [fst].
    by rewrite fresh_registry_batch.
Qed.
End ServiceFacts.

(** ** Worked instances of the further properties *)

Lemma unfitted_fallback_cannot_score_witness :
  (detect Demo.hash Demo.repr Demo.sqrt default_settings
     DemoService.disk_bare 0 (Demo.tx 10) unloaded).2 = inl not_fitted /\
  (detect_batch Demo.hash Demo.repr Demo.sqrt default_settings
     DemoService.disk_bare Demo.clock [Demo.tx 10; Demo.tx 30] unloaded).2
  = inl not_fitted.
Proof.
  destruct (unfitted_fallback_cannot_score Demo.hash Demo.repr Demo.sqrt
              default_settings DemoService.disk_bare unloaded)
    as [Hone Hmany]; [by left | by left |].
  split; [apply Hone | by apply Hmany].
Defined.

Lemma bundle_without_model_cannot_score_witness :
  (detect Demo.hash Demo.repr Demo.sqrt default_settings Demo.disk 0
     (Demo.tx 10) unloaded).2
  = inl (AttributeError "'NoneType' object has no attribute 'predict'") /\
  (is_model_loaded
     (detect_batch Demo.hash Demo.repr Demo.sqrt default_settings Demo.disk
        Demo.clock [Demo.tx 10; Demo.tx 30] unloaded).1).2 = inr false.
Proof.
  destruct (bundle_without_model_cannot_score Demo.hash Demo.repr Demo.sqrt
              default_settings Demo.disk unloaded (Some fresh_scaler))
    as [Hone Hmany]; [reflexivity | reflexivity |].
  split; [apply Hone | by apply Hmany].
Defined.

Lemma scoring_keeps_model_and_flag_witness :
  _model (detect_batch Demo.hash Demo.repr Demo.sqrt default_settings
            Demo.disk Demo.clock [Demo.tx 10; Demo.tx 30]
            (Demo.registry Demo.forest)).1
  = Some (Demo.fitted Demo.forest) /\
  _model_loaded (detect Demo.hash Demo.repr Demo.sqrt default_settings
                   Demo.disk 0 (Demo.tx 10) unloaded).1 = true.
Proof.
  split.
  - destruct (scoring_keeps_model_and_flag Demo.hash Demo.repr Demo.sqrt
                default_settings Demo.disk (Demo.registry Demo.forest))
      as [_ Hmany].
    destruct (Hmany Demo.clock [Demo.tx 10; Demo.tx 30]) as [_ Hkeep].
    by destruct Hkeep as [Hm _].
  - destruct (scoring_keeps_model_and_flag Demo.hash Demo.repr Demo.sqrt
                default_settings Demo.disk unloaded) as [Hone _].
    apply Hone.
Defined.

Lemma result_ids_bounded_not_unique_witness :
  exists rs r0 r1 r2,
    (detect_batch Demo.hash Demo.repr Demo.sqrt default_settings
       Demo.disk Demo.clock [Demo.acme 10; Demo.tx 30; Demo.acme 10]
       (Demo.registry Demo.forest)).2 = inr rs /\
    length rs = 3%nat /\
    rs !! 0%nat = Some r0 /\ rs !! 1%nat = Some r1 /\ rs !! 2%nat = Some r2 /\
    resp_id r0 = Demo.hash (Demo.repr (Demo.acme 10)) mod 1000000 /\
    resp_id r1 = Demo.hash (Demo.repr (Demo.tx 30)) mod 1000000 /\
    resp_id r2 = resp_id r0.
Proof.
  destruct (detect_batch Demo.hash Demo.repr Demo.sqrt default_settings
              Demo.disk Demo.clock [Demo.acme 10; Demo.tx 30; Demo.acme 10]
              (Demo.registry Demo.forest)).2 as [e | rs] eqn:E.
  - vm_compute in E. discriminate.
  - destruct (proj2 (result_ids_bounded_not_unique Demo.hash Demo.repr
                       Demo.sqrt default_settings Demo.disk) _ _ _ _ E)
      as (Hlen & Hids & Hsame).
    destruct (Hids 0%nat (Demo.acme 10) eq_refl) as (r0 & H0 & Hid0 & _).
    destruct (Hids 1%nat (Demo.tx 30) eq_refl) as (r1 & H1 & Hid1 & _).
    destruct (Hids 2%nat (Demo.acme 10) eq_refl) as (r2 & H2 & _).
    exists rs, r0, r1, r2. split; [reflexivity |].
    split; [exact Hlen |].
    split; [exact H0 |]. split; [exact H1 |]. split; [exact H2 |].
    split; [exact Hid0 |]. split; [exact Hid1 |].
    exact (Hsame 2%nat 0%nat (Demo.acme 10) r2 r0 eq_refl eq_refl H2 H0).
Defined.

(** An absent merchant and an empty merchant name are scored alike. *)
Lemma outcomes_depend_on_features_only_witness :
  result_map outcome
    (detect Demo.hash Demo.repr Demo.sqrt default_settings Demo.disk 0
       {| amount := Demo.q 10 1; merchant := None; category := None;
          customer_id := None |} (Demo.registry Demo.forest)).2
  = result_map outcome
      (detect Demo.hash Demo.repr Demo.sqrt default_settings Demo.disk 7
         {| amount := Demo.q 10 1; merchant := Some ""; category := None;
            customer_id := Some "" |} (Demo.registry Demo.forest)).2.
Proof.
  apply (proj1 (outcomes_depend_on_features_only Demo.hash Demo.repr
                  Demo.sqrt default_settings Demo.disk
                  (Demo.registry Demo.forest))).
  reflexivity.
Defined.

Lemma legacy_and_bundle_score_alike_witness :
  (detect Demo.hash Demo.repr Demo.sqrt default_settings
     DemoService.disk_legacy 0 (Demo.tx 10) unloaded).2
  = (detect Demo.hash Demo.repr Demo.sqrt default_settings
       DemoService.disk_bundle 0 (Demo.tx 10) unloaded).2 /\
  is_ok (detect Demo.hash Demo.repr Demo.sqrt default_settings
           DemoService.disk_legacy 0 (Demo.tx 10) unloaded).2 = true.
Proof.
  split; [| vm_compute; reflexivity].
  apply (legacy_and_bundle_score_alike Demo.hash Demo.repr Demo.sqrt
           default_settings DemoService.disk_legacy DemoService.disk_bundle
           (Demo.fitted Demo.forest) fresh_scaler unloaded);
    reflexivity.
Defined.

Lemma detect_fraud_counts_witness :
  match (detect_fraud Demo.hash Demo.repr Demo.sqrt default_settings
           DemoService.disk_bundle Demo.clock
           {| transactions := [Demo.tx 10; Demo.tx 5000; Demo.tx 12] |}
           DemoService.no_instance).2 with
  | inr response =>
    total_transactions response = 3 /\
    fraud_count response + normal_count response = 3
  | inl _ => False
  end.
Proof.
  destruct (detect_fraud _ _ _ _ _ _ _ _).2 as [h | response] eqn:E.
  - vm_compute in E. discriminate.
  - destruct (detect_fraud_counts _ _ _ _ _ _ _ _ _ E)
      as (_ & Ht & _ & Hsum & _).
    rewrite Hsum, Ht. by split.
Defined.

Lemma upload_client_errors_answer_500_witness :
  (upload_transactions Demo.hash Demo.repr Demo.sqrt default_settings
     DemoService.disk_bundle DemoService.runtime Demo.clock
     DemoService.text_file DemoService.no_instance).2
  = inl {| status_code := 500;
           detail := "Error processing file: File must be a CSV file" |} /\
  (upload_transactions Demo.hash Demo.repr Demo.sqrt default_settings
     DemoService.disk_bundle DemoService.runtime Demo.clock
     DemoService.csv_without_amount DemoService.no_instance).2
  = inl {| status_code := 500;
           detail := "Error processing file: Missing required columns: amount" |}.
Proof.
  split.
  - apply (proj1 (upload_client_errors_answer_500 Demo.hash Demo.repr
                    Demo.sqrt default_settings DemoService.disk_bundle
                    DemoService.runtime Demo.clock DemoService.text_file
                    DemoService.no_instance)).
    reflexivity.
  - apply (proj2 (upload_client_errors_answer_500 Demo.hash Demo.repr
                    Demo.sqrt default_settings DemoService.disk_bundle
                    DemoService.runtime Demo.clock
                    DemoService.csv_without_amount DemoService.no_instance)
             DemoService.frame_without_amount);
      [reflexivity | reflexivity |].
    intros H. by apply list_elem_of_singleton in H.
Defined.

Lemma upload_400_only_for_empty_data_witness :
  match (upload_transactions Demo.hash Demo.repr Demo.sqrt default_settings
           DemoService.disk_bundle DemoService.runtime Demo.clock
           DemoService.csv_empty DemoService.no_instance).2 with
  | inl h => status_code h = 400 /\ detail h = "CSV file is empty"
  | inr _ => False
  end.
Proof.
  destruct (upload_transactions _ _ _ _ _ _ _ _ _).2 as [h | response] eqn:E.
  - destruct (upload_400_only_for_empty_data _ _ _ _ _ _ _ _ _ _ E)
      as (_ & H400 & Hdetail).
    assert (Hs : status_code h = 400).
    { apply H400. split; [reflexivity |]. by eexists. }
    split; [exact Hs | by apply Hdetail].
  - vm_compute in E. discriminate.
Defined.

Lemma upload_success_counts_witness :
  match (upload_transactions Demo.hash Demo.repr Demo.sqrt default_settings
           DemoService.disk_bundle DemoService.runtime Demo.clock
           DemoService.csv_file DemoService.no_instance).2 with
  | inr response =>
    total_transactions response = 3 /\
    fraud_count response + normal_count response = 3
  | inl _ => False
  end.
Proof.
  destruct (upload_transactions _ _ _ _ _ _ _ _ _).2 as [h | response] eqn:E.
  - vm_compute in E. discriminate.
  - destruct (upload_success_counts _ _ _ _ _ _ _ _ _ _ E)
      as (_ & df & ts & Hdf & _ & _ & _ & _ & Ht & Hsum).
    vm_compute in Hdf. injection Hdf as <-.
    rewrite Hsum, Ht. by split.
Defined.

Lemma upload_without_rows_is_500_witness :
  (upload_transactions Demo.hash Demo.repr Demo.sqrt default_settings
     DemoService.disk_bundle DemoService.runtime Demo.clock
     DemoService.csv_header_only DemoService.no_instance).2
  = inl {| status_code := 500;
           detail := "Error processing file: need at least one array to concatenate" |}.
Proof.
  apply (upload_without_rows_is_500 Demo.hash Demo.repr Demo.sqrt
           default_settings DemoService.disk_bundle DemoService.runtime
           Demo.clock DemoService.csv_header_only DemoService.no_instance
           DemoService.header_only);
    [reflexivity | reflexivity | | reflexivity].
  apply list_elem_of_here.
Defined.

Lemma get_statistics_consistent_witness :
  (exists stats,
      get_statistics DemoService.runtime (live []) = inr stats /\
      stats_total_transactions stats = 0 /\ fraud_rate stats = 0%Qc) /\
  (exists stats,
      get_statistics DemoService.runtime (live DemoService.table) = inr stats /\
      stats_total_transactions stats = 3 /\ fraud_transactions stats = 1 /\
      (fraud_rate stats <= of_int 100)%Qc).
Proof.
  destruct (get_statistics_consistent DemoService.runtime) as [Hlive _].
  split.
  - destruct (Hlive []) as (stats & Hs & _ & _ & _ & _ & _ & _ & Hempty).
    destruct (Hempty eq_refl) as (Ht & _ & _ & Hr).
    by exists stats.
  - destruct (Hlive DemoService.table)
      as (stats & Hs & Ht & Hf & _ & _ & _ & Hr & _).
    by exists stats.
Defined.

Lemma health_check_status_witness :
  (exists body,
      (health_check (live DemoService.table) 0
         {| _instance := Some (Demo.registry Demo.forest) |}).2 = inr body /\
      status body = "healthy") /\
  (exists body,
      (health_check (broken (OtherError "unable to open database file")) 0
         {| _instance := Some (Demo.registry Demo.forest) |}).2 = inr body /\
      status body = "degraded").
Proof.
  split.
  - destruct (health_check_status (live DemoService.table) 0
                {| _instance := Some (Demo.registry Demo.forest) |})
      as (body & Hrun & Hm & _ & Hs & _).
    exists body. split; [by rewrite Hrun |].
    apply Hs. split; [by eexists | by rewrite Hm].
  - destruct (health_check_status
                (broken (OtherError "unable to open database file")) 0
                {| _instance := Some (Demo.registry Demo.forest) |})
      as (body & Hrun & _ & _ & Hs & [Hh | Hd]).
    + apply Hs in Hh as [[table Hlive] _]. discriminate.
    + exists body. split; [by rewrite Hrun | exact Hd].
Defined.

Lemma healthy_but_cannot_score_witness :
  let started :=
    (startup default_settings DemoService.disk_bare
       (live DemoService.table) DemoService.no_instance).1 in
  (exists body,
      (health_check (live DemoService.table) 0 started).2 = inr body /\
      status body = "healthy") /\
  (detect_fraud Demo.hash Demo.repr Demo.sqrt default_settings
     DemoService.disk_bare Demo.clock
     {| transactions := [Demo.tx 10; Demo.tx 5000] |} started).2
  = inl {| status_code := 500;
           detail := "Error during detection: This IsolationForest instance is not fitted yet. Call 'fit' with appropriate arguments before using this estimator." |}.
Proof.
  intros started.
  destruct (healthy_but_cannot_score Demo.hash Demo.repr Demo.sqrt
              default_settings DemoService.disk_bare DemoService.table
              DemoService.no_instance) as (_ & Hhealth & Hdetect);
    [by left |].
  split.
  - destruct (Hhealth 0) as (body & Hb & Hs & _). by exists body.
  - by apply Hdetect.
Defined.
